(** * examples/train_from_scratch.py

    The script configures and launches a masked-language-model pretraining
    run: it parses one command-line flag, opens a tracking run, seeds the
    random generators, builds a tokenizer, a data pipeline, a model with two
    prediction heads, an optimizer with a warm-up schedule and a trainer,
    trains, and saves the model and the processor.

    The script is embedded as a computation in a state-and-exception monad
    over the world the process sees (command line, files, accelerators,
    random generators, tracking service, the objects it shares by reference)
    together with the trace of the calls it makes.  Third-party behaviour
    (hardware, the training loop's arithmetic, the tracking service) is a
    parameter of the development, gathered in the classes [Backend] and
    [TrainingLoop]. *)

From Stdlib Require Import ZArith Ascii String List Floats.
From Stdlib Require Import DecimalString DecimalPos DecimalZ Lia.
From stdpp Require Import base option strings list gmap.

Set Warnings "-inexact-float".
Local Open Scope string_scope.
Local Open Scope Z_scope.
Local Open Scope list_scope.

(** ** Python values the script handles *)

(** [pathlib.Path]: the script only builds paths, with [Path(s)] and [/]. *)
Abbreviation Path := string.

Definition path_join (d : Path) (name : string) : Path := d +:+ "/" +:+ name.

(** ** [argparse], as far as the script uses it

    A parser of long options that each store one converted value, with the
    built-in help, as CPython's [argparse] treats a command line of ASCII
    characters: every token is classified first, then the options are
    consumed from left to right.  Options may be abbreviated and may carry
    their value after an [=]. *)
Module argparse.

(** What [parse_args] does with a command line: it returns the namespace,
    or leaves the process with an exit status (0 after printing the help,
    2 after a usage error). *)
Inductive Outcome (A : Type) : Type :=
| Parsed (a : A)
| SystemExit (code : Z).
Arguments Parsed {A} a.
Arguments SystemExit {A} code.

(** One [add_argument] of an option that stores one converted value. *)
Record Action : Type := mkAction {
  option_string : string;
  type : string -> option Z;
  default : Z;
  help : string
}.

(** [ArgumentParser()]: the options added so far; [-h] and [--help] are
    built in ([add_help] defaults to true). *)
Record ArgumentParser : Type := mkParser {
  actions : list Action
}.

Definition new : ArgumentParser := mkParser [].

Definition add_argument (p : ArgumentParser) (a : Action) : ArgumentParser :=
  mkParser (actions p ++ [a]).

(** The attributes of the namespace, by name. *)
Abbreviation Namespace := (gmap string Z).

(** [dest] of a long option: the option string without its two dashes,
    inner dashes turned into underscores. *)
Fixpoint underscores (s : string) : string :=
  match s with
  | EmptyString => EmptyString
  | String c r => String (if Ascii.eqb c "-" then "_"%char else c) (underscores r)
  end.

Definition dest (a : Action) : string :=
  underscores (String.substring 2 (String.length (option_string a)) (option_string a)).

Definition defaults (p : ArgumentParser) : Namespace :=
  fold_left (fun ns a => <[dest a := default a]> ns) (actions p) ∅.

Definition is_digit (c : ascii) : bool :=
  let n := nat_of_ascii c in (48 <=? n)%nat && (n <=? 57)%nat.

(** The blanks of ASCII: tab, line feed, vertical tab, form feed, carriage
    return and space. *)
Definition is_space (c : ascii) : bool :=
  let n := nat_of_ascii c in ((9 <=? n)%nat && (n <=? 13)%nat) || (n =? 32)%nat.

Fixpoint lstrip (s : string) : string :=
  match s with
  | EmptyString => EmptyString
  | String c r => if is_space c then lstrip r else s
  end.

Fixpoint rstrip (s : string) : string :=
  match s with
  | EmptyString => EmptyString
  | String c r =>
      match rstrip r with
      | EmptyString => if is_space c then EmptyString else String c EmptyString
      | r' => String c r'
      end
  end.

(** The digits of a literal, in which single underscores may separate
    digits. *)
Fixpoint digits (s : string) (after_digit : bool) : option string :=
  match s with
  | EmptyString => if after_digit then Some EmptyString else None
  | String c r =>
      if is_digit c then String c <$> digits r true
      else if Ascii.eqb c "_" && after_digit then digits r false
      else None
  end.

(** [int] of a string of ASCII characters: blanks around a decimal literal
    with an optional sign; [None] is [ValueError].  (A limit on the number
    of digits, which recent interpreters have, is not part of it.) *)
Definition int (s : string) : option Z :=
  let t := rstrip (lstrip s) in
  let '(negative, body) :=
    match t with
    | String c r =>
        if Ascii.eqb c "-" then (true, r)
        else if Ascii.eqb c "+" then (false, r)
        else (false, t)
    | EmptyString => (false, t)
    end in
  d ← digits body false;
  u ← NilZero.uint_of_string d;
  Some (if negative then - Z.of_uint u else Z.of_uint u).

(** [tok.split('=', 1)]: a token is split at its first [=]. *)
Fixpoint split_eq (s : string) : string * option string :=
  match s with
  | EmptyString => (EmptyString, None)
  | String c r =>
      if Ascii.eqb c "=" then (EmptyString, Some r)
      else let '(o, v) := split_eq r in (String c o, v)
  end.

(** [_option_string_actions]: the option strings the parser knows, each
    with its action; the built-in help has no [Action] of its own and is
    [None]. *)
Definition option_string_actions (p : ArgumentParser) : list (string * option Action) :=
  ("-h", None) :: ("--help", None)
  :: map (fun a => (option_string a, Some a)) (actions p).

Definition lookup_option (p : ArgumentParser) (s : string) : option (option Action) :=
  snd <$> List.find (fun c => String.eqb c.1 s) (option_string_actions p).

(** What a token is taken for: an option of the parser, under the option
    string it stands for, with the argument attached to it, if any; a
    token that looks like an option and is none; an argument; the
    pseudo-argument [--]. *)
Inductive Token : Type :=
| TOption (action : option Action) (option_string : string) (explicit_arg : option string)
| TUnknown
| TArgument
| TSeparator.

Fixpoint skip_digits (s : string) : string :=
  match s with
  | EmptyString => EmptyString
  | String c r => if is_digit c then skip_digits r else s
  end.

(** [$] of a regular expression: the end of the string, or the line feed
    that ends it. *)
Definition at_end (s : string) : bool :=
  match s with
  | EmptyString => true
  | String c EmptyString => Ascii.eqb c "010"
  | _ => false
  end.

Definition digits_to_end (s : string) : bool :=
  match s with
  | EmptyString => false
  | String c r => is_digit c && at_end (skip_digits r)
  end.

(** [_negative_number_matcher], the expression [^-\d+$|^-\d*\.\d+$]. *)
Definition negative_number (tok : string) : bool :=
  match tok with
  | EmptyString => false
  | String c r =>
      Ascii.eqb c "-"
      && (digits_to_end r
          || match skip_digits r with
             | String d f => Ascii.eqb d "." && digits_to_end f
             | EmptyString => false
             end)
  end.

Fixpoint contains_space (s : string) : bool :=
  match s with
  | EmptyString => false
  | String c r => Ascii.eqb c " " || contains_space r
  end.

(** [_get_option_tuples]: the options a token may abbreviate.  A token of
    two dashes is split at its [=] and stands for every option string it
    is a prefix of; a token of one dash stands for the one-letter option
    of its first two characters, the rest being attached to it, and for
    every option string it is a prefix of. *)
Definition get_option_tuples (p : ArgumentParser) (tok : string) : list Token :=
  if String.prefix "--" tok then
    let '(option_prefix, explicit_arg) := split_eq tok in
    omap (fun c => if String.prefix option_prefix c.1
                   then Some (TOption c.2 c.1 explicit_arg) else None)
         (option_string_actions p)
  else
    let short_option_prefix := String.substring 0 2 tok in
    let short_explicit_arg := String.substring 2 (String.length tok) tok in
    omap (fun c => if String.eqb c.1 short_option_prefix
                   then Some (TOption c.2 c.1 (Some short_explicit_arg))
                   else if String.prefix tok c.1
                   then Some (TOption c.2 c.1 None) else None)
         (option_string_actions p).

(** [_parse_optional]: what a token other than [--] is taken for.  A token
    that abbreviates several options is a usage error. *)
Definition parse_optional (p : ArgumentParser) (tok : string) : Outcome Token :=
  match tok with
  | EmptyString => Parsed TArgument
  | String c r =>
      if negb (Ascii.eqb c "-") then Parsed TArgument else
      match lookup_option p tok with
      | Some action => Parsed (TOption action tok None)
      | None =>
          match r with
          | EmptyString => Parsed TArgument
          | _ =>
              let '(o, e) := split_eq tok in
              match e, lookup_option p o with
              | Some v, Some action => Parsed (TOption action o (Some v))
              | _, _ =>
                  match get_option_tuples p tok with
                  | [] =>
                      if negative_number tok then Parsed TArgument
                      else if contains_space tok then Parsed TArgument
                      else Parsed TUnknown
                  | [t] => Parsed t
                  | _ => SystemExit 2
                  end
              end
          end
      end
  end.

(** The first pass over the command line: every token is classified, and
    whatever follows [--] is an argument. *)
Fixpoint scan (p : ArgumentParser) (argv : list string) : Outcome (list (string * Token)) :=
  match argv with
  | [] => Parsed []
  | tok :: rest =>
      if String.eqb tok "--"
      then Parsed ((tok, TSeparator) :: map (fun s => (s, TArgument)) rest)
      else
        match parse_optional p tok with
        | SystemExit code => SystemExit code
        | Parsed t =>
            match scan p rest with
            | SystemExit code => SystemExit code
            | Parsed ts => Parsed ((tok, t) :: ts)
            end
        end
  end.

(** One-letter options written together after an option that takes no
    argument ([-hh]): every letter has to be an option; the last one may
    take the argument that follows. *)
Fixpoint short_options (p : ArgumentParser) (attached : string) (argument_follows : bool)
    : bool :=
  match attached with
  | EmptyString => true
  | String c r =>
      match lookup_option p (String "-" (String c EmptyString)) with
      | None => false
      | Some None =>
          match r with
          | EmptyString => true
          | _ => short_options p r argument_follows
          end
      | Some (Some _) =>
          match r with
          | EmptyString => argument_follows
          | _ => true
          end
      end
  end.

Definition single_dash (o : string) : bool :=
  match o with
  | String _ (String c _) => negb (Ascii.eqb c "-")
  | _ => false
  end.

Definition argument_first (toks : list (string * Token)) : bool :=
  match toks with
  | (_, TArgument) :: _ => true
  | _ => false
  end.

(** The second pass: the options are consumed from left to right.  The
    help ends the process with status 0; a usage error at an option ends
    it at once with status 2; a token that is no option is reported only
    when the end of the command line is reached, the parser having no
    positional argument.  The value of an option is the argument attached
    to it or else the next token, which has to be an argument. *)
Fixpoint consume (p : ArgumentParser) (ns : Namespace) (extras : bool)
    (toks : list (string * Token)) : Outcome Namespace :=
  match toks with
  | [] => if extras then SystemExit 2 else Parsed ns
  | (_, TArgument) :: rest | (_, TSeparator) :: rest | (_, TUnknown) :: rest =>
      consume p ns true rest
  | (_, TOption None _ None) :: _ => SystemExit 0
  | (_, TOption None o (Some e)) :: rest =>
      if single_dash o && negb (String.eqb e "")
         && short_options p e (argument_first rest)
      then SystemExit 0 else SystemExit 2
  | (_, TOption (Some a) _ (Some v)) :: rest =>
      match type a v with
      | Some z => consume p (<[dest a := z]> ns) extras rest
      | None => SystemExit 2
      end
  | (_, TOption (Some a) _ None) :: rest =>
      match rest with
      | (v, TArgument) :: rest' =>
          match type a v with
          | Some z => consume p (<[dest a := z]> ns) extras rest'
          | None => SystemExit 2
          end
      | _ => SystemExit 2
      end
  end.

Definition parse_args (p : ArgumentParser) (argv : list string) : Outcome Namespace :=
  match scan p argv with
  | SystemExit code => SystemExit code
  | Parsed toks => consume p (defaults p) false toks
  end.

End argparse.

(** [str(v)] of an integer: its decimal literal. *)
Definition str (v : Z) : string := NilZero.string_of_int (Z.to_int v).

(** ** What the libraries bring *)

(** The numeric back end and the services of the machine: accelerators and
    process group, random generators, tensors, the tracking service and the
    parsing of a vocabulary file.  Each operation has the footprint of its
    type; a result [None] is an exception. *)
Class Backend : Type := {
  Device : Type;
  Cluster : Type;
  Rng : Type;
  Data : Type;
  Tracking : Type;
  (** the generators of [random], [numpy] and [torch] after seeding *)
  manual_seed : Z -> Rng;
  (** initial values of a tensor of a given shape *)
  randn : list Z -> Rng -> Data * Rng;
  (** device and number of GPUs for a local rank; a non-default rank may
      join the process group *)
  select_device : bool -> Z -> option string -> Cluster -> option (Device * Z * Cluster);
  (** wrapping of a model for distributed and mixed-precision training *)
  wrap_model : bool -> Z -> option string -> Device -> Cluster -> option Cluster;
  world_size : Cluster -> Z;
  (** opening a run of an experiment at a tracking URI *)
  open_run : string -> string -> string -> Tracking -> option Tracking;
  (** token to id mapping read from the lines of a vocabulary file *)
  load_vocab : list string -> gmap string Z;
  (** parameter names and shapes of an encoder architecture for a
      vocabulary size, the table of word embeddings included *)
  encoder_shapes : string -> Z -> option (list (string * list Z));
  (** parameter names and shapes of a feed-forward head of given layer
      dimensions *)
  head_shapes : list Z -> list (string * list Z);
  (** number of samples in the lines of a corpus file *)
  count_samples : list string -> Z;
  (** whether the file system takes the files of an artefact (["model"],
      ["processor"]) that is written into a directory *)
  takes_files : Path -> string -> bool
}.

(** How a computation ends when it does not return: the process exits
    with a status, or an exception of a library propagates. *)
Inductive Exn : Type :=
| SystemExit (code : Z)
| Raised.

Inductive Result (A : Type) : Type :=
| Ok (a : A)
| Err (e : Exn).
Arguments Ok {A} a.
Arguments Err {A} e.

Section Objects.
Context `{Backend}.

(** *** Objects the script builds *)

(** A tensor of [torch]: its shape and its contents. *)
Record Tensor : Type := mkTensor {
  shape : list Z;
  values : Data
}.

(** Named parameters, as a state dictionary lists them. *)
Definition Parameters := list (string * Tensor).

Definition shapes (ps : Parameters) : list (string * list Z) :=
  map (fun p => (p.1, shape p.2)) ps.

(** Modelled from the spec: [farm.utils.MLFlowLogger] is not among the
    sources. The logger keeps the tracking URI it is configured with. *)
Record MLFlowLogger : Type := mkMLFlowLogger {
  tracking_uri : string
}.

(** [BertTokenizer] of [transformers], a library outside the repository: the
    tokenizer "owns a vocabulary mapping" and is read-only once built. *)
Record BertTokenizer : Type := mkBertTokenizer {
  vocab : gmap string Z;
  do_lower_case : bool
}.

(** [tokenizer.vocab_size] of [transformers]: the number of entries of the
    vocabulary. *)
Definition vocab_size (t : BertTokenizer) : Z := Z.of_nat (size (vocab t)).

(** Modelled from the spec:
    [farm.data_handler.processor.BertStyleLMProcessor] is not among the
    sources. A processor keeps the arguments it is built with: the data
    directory, the tokenizer, the sequence length and the names of the
    dataset files. *)
Record BertStyleLMProcessor : Type := mkBertStyleLMProcessor {
  data_dir : Path;
  tokenizer : BertTokenizer;
  max_seq_len : Z;
  train_filename : option string;
  dev_filename : option string;
  test_filename : option string
}.

(** Modelled from the spec: [farm.data_handler.data_silo.StreamingDataSilo]
    is not among the sources. A silo keeps its processor, its batch size and
    whether it is distributed. *)
Record StreamingDataSilo : Type := mkStreamingDataSilo {
  processor : BertStyleLMProcessor;
  batch_size : Z;
  distributed : bool
}.

(** Modelled from the spec: the loader a silo gives for one of its datasets
    is not among the sources. It keeps the silo, the file of the dataset and
    the lines read from it. *)
Record DataLoader : Type := mkDataLoader {
  loader_silo : StreamingDataSilo;
  loader_file : Path;
  corpus : list string
}.

(** Modelled from the spec: [farm.modeling.language_model.LanguageModel] is
    not among the sources. "A base encoder ... sized to the tokenizer's
    vocabulary": the architecture, the vocabulary size and the parameters. *)
Record LanguageModel : Type := mkLanguageModel {
  lm_name : string;
  lm_vocab_size : Z;
  lm_parameters : Parameters
}.

(** Modelled from the spec: the "two task heads (masked-LM token prediction,
    next-sentence binary classification)" of
    [farm.modeling.prediction_head], which is not among the sources. *)
Inductive HeadClass : Type := BertLMHead | NextSentenceHead.

(** Modelled from the spec: a prediction head of
    [farm.modeling.prediction_head] is a stack of layers of the given
    dimensions, from the width of the encoder to the number of outputs. *)
Record PredictionHead : Type := mkPredictionHead {
  head_class : HeadClass;
  layer_dims : list Z;
  task_name : option string;
  head_parameters : Parameters
}.

(** Modelled from the spec: the "output-layer width" of a head is the last
    of its layer dimensions. *)
Definition output_width (h : PredictionHead) : Z := List.last (layer_dims h) 0.

(** Modelled from the spec: [farm.modeling.adaptive_model.AdaptiveModel] is
    not among the sources. The model "owns learnable parameters (weight
    tensors) across a base encoder and two output heads". *)
Record AdaptiveModel : Type := mkAdaptiveModel {
  language_model : LanguageModel;
  prediction_heads : list PredictionHead;
  embeds_dropout_prob : float;
  lm_output_types : list string;
  model_device : Device
}.

(** Modelled from the spec: the learnable parameters of a model, those of
    the encoder first and then those of each head. *)
Definition parameters (m : AdaptiveModel) : Parameters :=
  (lm_parameters (language_model m)
   ++ concat (map head_parameters (prediction_heads m)))%list.

(** Models are mutated in place by training: the script holds them by
    reference, an index into the objects of the world. *)
Definition ModelRef := nat.

(** The dictionary [schedule_opts] of the script: the name of the schedule
    and the warm-up proportion. *)
Record ScheduleOpts : Type := mkScheduleOpts {
  schedule_name : string;
  warmup_proportion : float
}.

(** Modelled from the spec: the optimizer [initialize_optimizer] returns,
    for a model and a learning rate. *)
Record Optimizer : Type := mkOptimizer {
  optimizer_model : ModelRef;
  optimizer_lr : float
}.

(** Modelled from the spec: the "linear-warmup learning-rate schedule sized
    to the total step count" that [initialize_optimizer] returns. *)
Record LRSchedule : Type := mkLRSchedule {
  schedule_opts : ScheduleOpts;
  num_training_steps : Z
}.

(** Modelled from the spec: [farm.train.Trainer] is not among the sources. A
    trainer keeps what it is created with: model, optimizer, data, schedule
    and "a small set of knobs". *)
Record Trainer : Type := mkTrainer {
  trainer_model : ModelRef;
  trainer_optimizer : Optimizer;
  trainer_data_silo : StreamingDataSilo;
  trainer_epochs : Z;
  trainer_n_gpu : Z;
  trainer_lr_schedule : LRSchedule;
  trainer_evaluate_every : Z;
  trainer_device : Device;
  trainer_grad_acc_steps : Z;
  trainer_checkpoint_every : option Z;
  trainer_checkpoint_root_dir : option Path;
  trainer_use_amp : option string
}.

(** Modelled from the spec: "a save directory receiving serialized model
    weights and processor/tokenizer configuration". *)
Record SaveDir : Type := mkSaveDir {
  saved_model : option AdaptiveModel;
  saved_processor : option BertStyleLMProcessor
}.

(** *** Calls into the libraries, with their arguments *)

Inductive Call : Type :=
| CallBasicConfig (format datefmt : string) (level : Z)
| CallMLFlowLogger (uri : string)
| CallInitExperiment (logger : MLFlowLogger) (experiment_name run_name : string)
| CallSetAllSeeds (seed : Z)
| CallInitializeDeviceSettings (use_cuda : bool) (args : argparse.Namespace)
    (use_amp : option string)
| CallBertTokenizer (vocab_file : Path) (lower : bool)
| CallBertStyleLMProcessor (dir : Path) (tok : BertTokenizer) (seq_len : Z)
    (train dev test : option string)
| CallStreamingDataSilo (proc : BertStyleLMProcessor) (batch : Z) (distr : bool)
| CallFromScratch (name : string) (vocabulary : Z)
| CallBertLMHead (hidden_size vocabulary : Z)
| CallNextSentenceHead (dims : list Z) (task : string)
| CallAdaptiveModel (lm : LanguageModel) (heads : list PredictionHead)
    (dropout : float) (output_types : list string) (dev : Device)
| CallGetDataLoader (silo : StreamingDataSilo) (dataset_name : string)
| CallLen (loader : DataLoader)
| CallInitializeOptimizer (model : ModelRef) (learning_rate : float)
    (opts : ScheduleOpts) (n_batches n_epochs : Z) (dev : Device)
    (grad_acc_steps : Z) (distr : bool) (use_amp : option string)
    (local_rank : Z)
| CallCreateOrLoadCheckpoint (model : ModelRef) (optimizer : Optimizer)
    (silo : StreamingDataSilo) (epochs n_gpu : Z) (lr_schedule : LRSchedule)
    (evaluate_every : Z) (dev : Device) (grad_acc_steps : Z)
    (checkpoint_every : option Z) (checkpoint_root_dir : option Path)
    (use_amp : option string)
| CallTrain (trainer : Trainer)
| CallModelSave (model : ModelRef) (dir : Path)
| CallProcessorSave (proc : BertStyleLMProcessor) (dir : Path).

(** *** The world of a run *)

Record World : Type := mkWorld {
  argv : list string;
  files : gmap Path (list string);
  save_dirs : gmap Path SaveDir;
  cluster : Cluster;
  rng : Rng;
  tracking : Tracking;
  objects : list AdaptiveModel;
  trace : list Call
}.

Definition set_argv (a : list string) (w : World) : World :=
  mkWorld a (files w) (save_dirs w) (cluster w) (rng w) (tracking w) (objects w) (trace w).
Definition set_save_dirs (d : gmap Path SaveDir) (w : World) : World :=
  mkWorld (argv w) (files w) d (cluster w) (rng w) (tracking w) (objects w) (trace w).
Definition set_cluster (c : Cluster) (w : World) : World :=
  mkWorld (argv w) (files w) (save_dirs w) c (rng w) (tracking w) (objects w) (trace w).
Definition set_rng (r : Rng) (w : World) : World :=
  mkWorld (argv w) (files w) (save_dirs w) (cluster w) r (tracking w) (objects w) (trace w).
Definition set_tracking (t : Tracking) (w : World) : World :=
  mkWorld (argv w) (files w) (save_dirs w) (cluster w) (rng w) t (objects w) (trace w).
Definition set_objects (o : list AdaptiveModel) (w : World) : World :=
  mkWorld (argv w) (files w) (save_dirs w) (cluster w) (rng w) (tracking w) o (trace w).
Definition set_trace (t : list Call) (w : World) : World :=
  mkWorld (argv w) (files w) (save_dirs w) (cluster w) (rng w) (tracking w) (objects w) t.

(** *** Computations: state, and exceptions that end the process *)

Definition M (A : Type) : Type := World -> Result A * World.

Definition ret {A} (a : A) : M A := fun w => (Ok a, w).

Definition bind {A B} (m : M A) (k : A -> M B) : M B :=
  fun w => match m w with
           | (Ok a, w') => k a w'
           | (Err e, w') => (Err e, w')
           end.

#[global] Instance M_ret : MRet M := @ret.
#[global] Instance M_bind : MBind M := fun A B k m => bind m k.

Definition raise {A} (e : Exn) : M A := fun w => (Err e, w).

Definition get {A} (f : World -> A) : M A := fun w => (Ok (f w), w).

Definition modify (f : World -> World) : M unit := fun w => (Ok tt, f w).

(** A value that must be there: its absence is an exception. *)
Definition expect {A} (o : option A) : M A :=
  match o with Some a => ret a | None => raise Raised end.

(** Every call into a library is recorded when it is made. *)
Definition call (c : Call) : M unit := modify (fun w => set_trace (trace w ++ [c]) w).

End Objects.


(** The training loop, a collaborator the script hands control to: from a
    trainer, the lines of the training corpus and the model it returns the
    trained model, drawing random numbers and reporting metrics on the way;
    and the latest checkpoint under a directory, when there is one. *)
Class TrainingLoop `{Backend} : Type := {
  run_epochs : Trainer -> list string -> Cluster -> Rng -> Tracking ->
               AdaptiveModel -> option (AdaptiveModel * Rng * Tracking);
  latest_checkpoint : Path -> option Trainer
}.

Section Script.
Context `{TrainingLoop}.

(** ** The standard library: [argparse], [logging] *)

Definition parse_args (p : argparse.ArgumentParser) : M argparse.Namespace :=
  args ← get argv;
  match argparse.parse_args p args with
  | argparse.Parsed ns => mret ns
  | argparse.SystemExit code => raise (SystemExit code)
  end.

(** Attribute access [args.name]. *)
Definition getattr (ns : argparse.Namespace) (name : string) : M Z :=
  expect (ns !! name).

Definition logging_INFO : Z := 20.

Definition logging_basicConfig (format datefmt : string) (level : Z) : M unit :=
  call (CallBasicConfig format datefmt level).

(** ** The tokenizer of [transformers] *)

(** [BertTokenizer(vocab_file, do_lower_case)] of [transformers]: the
    vocabulary file is read; a missing file is fatal. *)
Definition BertTokenizer_new (vocab_file : Path) (lower : bool) : M BertTokenizer :=
  call (CallBertTokenizer vocab_file lower);;
  fs ← get files;
  lines ← expect (fs !! vocab_file);
  mret (mkBertTokenizer (load_vocab lines) lower).

(** ** The framework ([farm]) *)

(** Modelled from the spec: [farm.utils.MLFlowLogger] is not among the
    sources. "An experiment-tracking service reachable via a configured
    tracking URI." *)
Definition MLFlowLogger_new (uri : string) : M MLFlowLogger :=
  call (CallMLFlowLogger uri);;
  mret (mkMLFlowLogger uri).

(** Modelled from the spec: [MLFlowLogger.init_experiment] is not among the
    sources. "An experiment name and run name are recorded at start"; a
    failure of the service is fatal. *)
Definition init_experiment (logger : MLFlowLogger) (experiment_name run_name : string)
    : M unit :=
  call (CallInitExperiment logger experiment_name run_name);;
  t ← get tracking;
  t' ← expect (open_run (tracking_uri logger) experiment_name run_name t);
  modify (set_tracking t').

(** Modelled from the spec: [farm.utils.set_all_seeds] is not among the
    sources. "Seed all random number generators." *)
Definition set_all_seeds (seed : Z) : M unit :=
  call (CallSetAllSeeds seed);;
  modify (set_rng (manual_seed seed)).

(** Modelled from the spec: [farm.utils.initialize_device_settings] is not
    among the sources. Device selection, one of the two calls into which the
    script passes "a local-rank identifier". *)
Definition initialize_device_settings (use_cuda : bool) (args : argparse.Namespace)
    (use_amp : option string) : M (Device * Z) :=
  call (CallInitializeDeviceSettings use_cuda args use_amp);;
  local_rank ← getattr args "local_rank";
  c ← get cluster;
  '(device, n_gpu, c') ← expect (select_device use_cuda local_rank use_amp c);
  modify (set_cluster c');;
  mret (device, n_gpu).

(** Modelled from the spec: the constructor of [BertStyleLMProcessor] is not
    among the sources. It keeps its arguments. *)
Definition BertStyleLMProcessor_new (dir : Path) (tok : BertTokenizer) (seq_len : Z)
    (train dev test : option string) : M BertStyleLMProcessor :=
  call (CallBertStyleLMProcessor dir tok seq_len train dev test);;
  mret (mkBertStyleLMProcessor dir tok seq_len train dev test).

(** Modelled from the spec: the constructor of [StreamingDataSilo] is not
    among the sources. It keeps its arguments; the corpus is read when a
    loader is asked for. *)
Definition StreamingDataSilo_new (proc : BertStyleLMProcessor) (batch : Z) (distr : bool)
    : M StreamingDataSilo :=
  call (CallStreamingDataSilo proc batch distr);;
  mret (mkStreamingDataSilo proc batch distr).

(** Modelled from the spec: the file of a dataset of a silo, by the name of
    the dataset. *)
Definition dataset_file (proc : BertStyleLMProcessor) (dataset_name : string)
    : option string :=
  if String.eqb dataset_name "train" then train_filename proc
  else if String.eqb dataset_name "dev" then dev_filename proc
  else if String.eqb dataset_name "test" then test_filename proc
  else None.

(** Modelled from the spec: the silo "wraps a text corpus into a streaming
    batch-producing object": the file of the dataset, under the data
    directory, is read; a missing file is fatal. *)
Definition open_dataset (silo : StreamingDataSilo) (dataset_name : string) : M DataLoader :=
  filename ← expect (dataset_file (processor silo) dataset_name);
  let path := path_join (data_dir (processor silo)) filename in
  fs ← get files;
  lines ← expect (fs !! path);
  mret (mkDataLoader silo path lines).

(** Modelled from the spec: [StreamingDataSilo.get_data_loader] is not among
    the sources. *)
Definition get_data_loader (silo : StreamingDataSilo) (dataset_name : string) : M DataLoader :=
  call (CallGetDataLoader silo dataset_name);;
  open_dataset silo dataset_name.

(** [math.ceil(a / b)] on integers. *)
Definition ceil_div (a b : Z) : Z := - ((- a) / b).

(** Modelled from the spec: the "dataset_size" of a loader, the number of
    samples in the lines of its file. *)
Definition dataset_size (loader : DataLoader) : Z := count_samples (corpus loader).

(** Modelled from the spec: the number of batches of a loader is
    "ceil(dataset_size / (batch_size × world_size))", the world being one
    process when the silo is not distributed. *)
Definition len (loader : DataLoader) : M Z :=
  call (CallLen loader);;
  c ← get cluster;
  let silo := loader_silo loader in
  let per_step := batch_size silo * (if distributed silo then world_size c else 1) in
  if Z.eqb per_step 0 then raise Raised
  else mret (ceil_div (dataset_size loader) per_step).

(** Modelled from the spec: "random init, not pretrained": a tensor of a
    given shape is drawn from the generators. *)
Definition init_tensor (sh : list Z) : M Tensor :=
  r ← get rng;
  let '(d, r') := randn sh r in
  modify (set_rng r');;
  mret (mkTensor sh d).

(** Modelled from the spec: the parameters of a table of names and shapes,
    drawn one after the other. *)
Fixpoint init_parameters (l : list (string * list Z)) : M Parameters :=
  match l with
  | [] => mret []
  | (name, sh) :: rest =>
      t ← init_tensor sh;
      ps ← init_parameters rest;
      mret ((name, t) :: ps)
  end.

(** The parameters [init_parameters] returns and the generator it leaves,
    as a function of the generator it starts from. *)
Fixpoint draw (l : list (string * list Z)) (r : Rng) : Parameters * Rng :=
  match l with
  | [] => ([], r)
  | (name, sh) :: rest =>
      let '(d, r1) := randn sh r in
      let '(ps, r2) := draw rest r1 in
      ((name, mkTensor sh d) :: ps, r2)
  end.

(** Modelled from the spec: [LanguageModel.from_scratch] is not among the
    sources. "Instantiate a base encoder from scratch (random init, not
    pretrained) sized to the tokenizer's vocabulary." *)
Definition LanguageModel_from_scratch (name : string) (vocabulary : Z) : M LanguageModel :=
  call (CallFromScratch name vocabulary);;
  sh ← expect (encoder_shapes name vocabulary);
  ps ← init_parameters sh;
  mret (mkLanguageModel name vocabulary ps).

(** Modelled from the spec: the constructor of [BertLMHead] is not among the
    sources. The head of "masked-LM token prediction", from the hidden size
    to the vocabulary size. *)
Definition BertLMHead_new (hidden_size vocabulary : Z) : M PredictionHead :=
  call (CallBertLMHead hidden_size vocabulary);;
  let dims := [hidden_size; vocabulary] in
  ps ← init_parameters (head_shapes dims);
  mret (mkPredictionHead BertLMHead dims None ps).

(** Modelled from the spec: the constructor of [NextSentenceHead] is not
    among the sources. The head of "next-sentence binary classification", of
    the layer dimensions given. *)
Definition NextSentenceHead_new (dims : list Z) (task : string) : M PredictionHead :=
  call (CallNextSentenceHead dims task);;
  ps ← init_parameters (head_shapes dims);
  mret (mkPredictionHead NextSentenceHead dims (Some task) ps).

(** Modelled from the spec: the constructor of [AdaptiveModel] is not among
    the sources. It puts the encoder and the heads together on the device;
    the model is an object of the run from then on. *)
Definition AdaptiveModel_new (lm : LanguageModel) (heads : list PredictionHead)
    (dropout : float) (output_types : list string) (dev : Device) : M ModelRef :=
  call (CallAdaptiveModel lm heads dropout output_types dev);;
  objs ← get objects;
  modify (set_objects (objs ++ [mkAdaptiveModel lm heads dropout output_types dev]));;
  mret (length objs).

(** Modelled from the spec: the total step count is the number of batches "×
    epochs ÷ grad_accumulation_steps, within rounding"; the quotient is
    rounded down. *)
Definition total_steps (n_batches n_epochs grad_acc_steps : Z) : Z :=
  n_batches * n_epochs / grad_acc_steps.

(** Modelled from the spec:
    [farm.modeling.optimization.initialize_optimizer] is not among the
    sources. "Build a gradient-descent optimizer and a linear-warmup
    learning-rate schedule sized to the total step count"; the local rank
    goes into the distributed wrapping of the model. *)
Definition initialize_optimizer (model : ModelRef) (learning_rate : float)
    (opts : ScheduleOpts) (n_batches n_epochs : Z) (dev : Device)
    (grad_acc_steps : Z) (distr : bool) (use_amp : option string) (local_rank : Z)
    : M (ModelRef * Optimizer * LRSchedule) :=
  call (CallInitializeOptimizer model learning_rate opts n_batches n_epochs dev
          grad_acc_steps distr use_amp local_rank);;
  (if Z.eqb grad_acc_steps 0 then raise Raised else mret tt);;
  c ← get cluster;
  c' ← expect (wrap_model distr local_rank use_amp dev c);
  modify (set_cluster c');;
  mret (model, mkOptimizer model learning_rate,
        mkLRSchedule opts (total_steps n_batches n_epochs grad_acc_steps)).

(** Modelled from the spec: [Trainer.create_or_load_checkpoint] is not among
    the sources. A new trainer, or "the latest checkpoint under a given root
    directory if one exists". *)
Definition Trainer_create_or_load_checkpoint (model : ModelRef) (optimizer : Optimizer)
    (silo : StreamingDataSilo) (epochs n_gpu : Z) (lr_schedule : LRSchedule)
    (evaluate_every : Z) (dev : Device) (grad_acc_steps : Z)
    (checkpoint_every : option Z) (checkpoint_root_dir : option Path)
    (use_amp : option string) : M Trainer :=
  call (CallCreateOrLoadCheckpoint model optimizer silo epochs n_gpu lr_schedule
          evaluate_every dev grad_acc_steps checkpoint_every checkpoint_root_dir
          use_amp);;
  let fresh := mkTrainer model optimizer silo epochs n_gpu lr_schedule evaluate_every
                 dev grad_acc_steps checkpoint_every checkpoint_root_dir use_amp in
  mret (default fresh (checkpoint_root_dir ≫= latest_checkpoint)).

(** Modelled from the spec: [Trainer.train] is not among the sources. The
    training loop is a collaborator: it iterates the batches of the training
    data for the configured epochs and updates the model in place. The
    writing of checkpoints, which the script turns off, is not part of this
    world. *)
Definition Trainer_train (trainer : Trainer) : M unit :=
  call (CallTrain trainer);;
  loader ← open_dataset (trainer_data_silo trainer) "train";
  objs ← get objects;
  m ← expect (objs !! trainer_model trainer);
  c ← get cluster;
  r ← get rng;
  t ← get tracking;
  '(m', r', t') ← expect (run_epochs trainer (corpus loader) c r t m);
  modify (set_objects (<[trainer_model trainer := m']> objs));;
  modify (set_rng r');;
  modify (set_tracking t').

(** Modelled from the spec: what a directory holds, nothing when it does not
    exist yet. *)
Definition the_save_dir (dirs : gmap Path SaveDir) (dir : Path) : SaveDir :=
  default (mkSaveDir None None) (dirs !! dir).

(** Modelled from the spec: [AdaptiveModel.save] is not among the sources.
    "Serialize model weights ... to disk."  The write may fail, as any
    write to the file system; the directory is then as it was. *)
Definition AdaptiveModel_save (model : ModelRef) (dir : Path) : M unit :=
  call (CallModelSave model dir);;
  objs ← get objects;
  m ← expect (objs !! model);
  if takes_files dir "model" then
    dirs ← get save_dirs;
    modify (set_save_dirs
              (<[dir := mkSaveDir (Some m) (saved_processor (the_save_dir dirs dir))]> dirs))
  else raise Raised.

(** Modelled from the spec: [Processor.save] is not among the sources.
    "Serialize ... processor/tokenizer config to disk."  The write may
    fail, as that of the model. *)
Definition Processor_save (proc : BertStyleLMProcessor) (dir : Path) : M unit :=
  call (CallProcessorSave proc dir);;
  if takes_files dir "processor" then
    dirs ← get save_dirs;
    modify (set_save_dirs
              (<[dir := mkSaveDir (saved_model (the_save_dir dirs dir)) (Some proc)]> dirs))
  else raise Raised.

(** ** [parse_arguments] (lines 18-25) *)

Definition parse_arguments : M argparse.Namespace :=
  let parser := argparse.new in
  let parser :=
    argparse.add_argument parser
      (argparse.mkAction "--local_rank" argparse.int (-1)
         "local_rank for distributed training on gpus") in
  args ← parse_args parser;
  mret args.

(** ** [train_from_scratch] (lines 28-136) *)

Definition train_from_scratch : M unit :=
  (* We need the local rank argument for DDP *)
  args ← parse_arguments;
  let use_amp : option string := None in
  logging_basicConfig "%(asctime)s - %(levelname)s - %(name)s -   %(message)s"
    "%m/%d/%Y %H:%M:%S" logging_INFO;;
  ml_logger ← MLFlowLogger_new "";
  init_experiment ml_logger "train_from_scratch" "run";;
  set_all_seeds 39;;
  '(device, n_gpu) ← initialize_device_settings true args use_amp;
  let evaluate_every := 10000 in
  let save_dir : Path := "saved_models/train_from_scratch" in
  let data_dir : Path := "data/lm_finetune_nips" in
  let train_filename := "train.txt" in
  let max_seq_len := 128 in
  let batch_size := 60 in
  let grad_acc := 4 in
  let learning_rate := 0.0001%float in
  let warmup_proportion := 0.01%float in
  let n_epochs := 1 in
  let vocab_file := "bert-base-uncased-vocab.txt" in
  (* 1. Create a tokenizer *)
  tokenizer ← BertTokenizer_new (path_join data_dir vocab_file) true;
  (* 2. Create a DataProcessor *)
  processor ← BertStyleLMProcessor_new data_dir tokenizer max_seq_len
                (Some train_filename) None None;
  (* 3. Create a DataSilo *)
  stream_data_silo ← StreamingDataSilo_new processor batch_size true;
  (* 4. Create an AdaptiveModel *)
  language_model ← LanguageModel_from_scratch "bert" (vocab_size tokenizer);
  lm_prediction_head ← BertLMHead_new 768 (vocab_size tokenizer);
  next_sentence_head ← NextSentenceHead_new [768; 2] "nextsentence";
  model ← AdaptiveModel_new language_model [lm_prediction_head; next_sentence_head]
            0.1%float ["per_token"; "per_sequence"] device;
  (* 5. Create an optimizer *)
  loader ← get_data_loader stream_data_silo "train";
  n_batches ← len loader;
  local_rank ← getattr args "local_rank";
  '(model, optimizer, lr_schedule) ←
    initialize_optimizer model learning_rate
      (mkScheduleOpts "LinearWarmup" warmup_proportion)
      n_batches n_epochs device grad_acc true use_amp local_rank;
  (* 6. Feed everything to the Trainer *)
  let checkpoint_every : option Z := None in
  let checkpoint_root_dir : option Path := None in
  trainer ← Trainer_create_or_load_checkpoint model optimizer stream_data_silo
              n_epochs n_gpu lr_schedule evaluate_every device grad_acc
              checkpoint_every checkpoint_root_dir use_amp;
  (* 7. Let it grow! *)
  Trainer_train trainer;;
  (* 8. Store it *)
  AdaptiveModel_save model save_dir;;
  Processor_save processor save_dir.

(** ** What a trace tells *)

(** The model handed to [AdaptiveModel(...)], as it is when it is assembled. *)
Definition assembled (tr : list Call) : option AdaptiveModel :=
  head (omap (fun c => match c with
                       | CallAdaptiveModel lm heads dropout types dev =>
                           Some (mkAdaptiveModel lm heads dropout types dev)
                       | _ => None
                       end) tr).

(** Number of batches, epochs and accumulation steps given to
    [initialize_optimizer]. *)
Definition optimizer_inputs (tr : list Call) : option (Z * Z * Z) :=
  head (omap (fun c => match c with
                       | CallInitializeOptimizer _ _ _ n_batches n_epochs _ grad_acc _ _ _ =>
                           Some (n_batches, n_epochs, grad_acc)
                       | _ => None
                       end) tr).

(** Total step count of the schedule the trainer is created with. *)
Definition configured_steps (tr : list Call) : option Z :=
  head (omap (fun c => match c with
                       | CallCreateOrLoadCheckpoint _ _ _ _ _ lr_schedule _ _ _ _ _ _ =>
                           Some (num_training_steps lr_schedule)
                       | _ => None
                       end) tr).

(** The mixed-precision flag a call receives, for the calls that take one. *)
Definition use_amp_of (c : Call) : option (option string) :=
  match c with
  | CallInitializeDeviceSettings _ _ use_amp => Some use_amp
  | CallInitializeOptimizer _ _ _ _ _ _ _ _ use_amp _ => Some use_amp
  | CallCreateOrLoadCheckpoint _ _ _ _ _ _ _ _ _ _ _ use_amp => Some use_amp
  | _ => None
  end.

(** The directory a call is given to write into: the two [save] methods,
    and the trainer for its checkpoints. *)
Definition written_dir (c : Call) : option Path :=
  match c with
  | CallModelSave _ dir => Some dir
  | CallProcessorSave _ dir => Some dir
  | CallCreateOrLoadCheckpoint _ _ _ _ _ _ _ _ _ _ root _ => root
  | _ => None
  end.

(** The calls that build the tokenizer, the processor and the data
    pipeline, and that read the datasets. *)
Definition is_data_call (c : Call) : bool :=
  match c with
  | CallBertTokenizer _ _ | CallBertStyleLMProcessor _ _ _ _ _ _
  | CallStreamingDataSilo _ _ _ | CallGetDataLoader _ _ | CallLen _ => true
  | _ => false
  end.

Definition data_calls (tr : list Call) : list Call := List.filter is_data_call tr.

(** The calls the local rank is passed into, with the rank taken out. *)
Definition erase_local_rank (c : Call) : Call :=
  match c with
  | CallInitializeDeviceSettings use_cuda _ use_amp =>
      CallInitializeDeviceSettings use_cuda ∅ use_amp
  | CallInitializeOptimizer model lr opts n_batches n_epochs dev grad_acc distr use_amp _ =>
      CallInitializeOptimizer model lr opts n_batches n_epochs dev grad_acc distr use_amp 0
  | _ => c
  end.

(** A process starts with no object and an empty trace. *)
Definition boot (args : list string) (fs : gmap Path (list string))
    (dirs : gmap Path SaveDir) (c : Cluster) (r : Rng) (t : Tracking) : World :=
  mkWorld args fs dirs c r t [] [].

(** The training loop, run by a trainer, has returned a model. *)
Definition trained (trainer : Trainer) (m : AdaptiveModel) : Prop :=
  exists corpus cl rg tk m0 rg' tk',
    run_epochs trainer corpus cl rg tk m0 = Some (m, rg', tk').

(** Every library answers the script: the command line is accepted, the
    tracking service opens the run, a device is found and the process group
    has members, the vocabulary and the corpus are there, the encoder
    architecture is known for the vocabulary, the model can be wrapped, the
    training loop returns and the file system takes what is saved. *)
Definition libraries_answer (args : list string) (fs : gmap Path (list string))
    (c : Cluster) (t : Tracking) : Prop :=
  exists (ns : argparse.Namespace) (z : Z) (dev : Device) (n_gpu : Z) (c1 : Cluster)
         (lines : list string),
    argparse.parse_args
      (argparse.add_argument argparse.new
         (argparse.mkAction "--local_rank" argparse.int (-1)
            "local_rank for distributed training on gpus")) args
    = argparse.Parsed ns
    /\ ns !! "local_rank" = Some z
    /\ is_Some (open_run "" "train_from_scratch" "run" t)
    /\ select_device true z None c = Some (dev, n_gpu, c1)
    /\ world_size c1 <> 0
    /\ fs !! path_join "data/lm_finetune_nips" "bert-base-uncased-vocab.txt" = Some lines
    /\ is_Some (fs !! path_join "data/lm_finetune_nips" "train.txt")
    /\ is_Some (encoder_shapes "bert" (vocab_size (mkBertTokenizer (load_vocab lines) true)))
    /\ is_Some (wrap_model true z None dev c1)
    /\ (forall trainer corpus cl rg tk m, is_Some (run_epochs trainer corpus cl rg tk m))
    /\ takes_files "saved_models/train_from_scratch" "model" = true
    /\ takes_files "saved_models/train_from_scratch" "processor" = true.

End Script.

Arguments vocab_size : simpl never.
Arguments total_steps : simpl never.
Arguments ceil_div : simpl never.
Arguments dataset_size : simpl never.
Arguments init_parameters : simpl never.
Arguments path_join : simpl never.

(** ** A small instance, to run the script on *)

Module Toy.

Definition enumerate_vocab (lines : list string) : gmap string Z :=
  fold_left (fun m it => <[it.2 := it.1]> m)
    (combine (map Z.of_nat (seq 0 (length lines))) lines) ∅.

#[export] Instance backend : Backend := {|
  Device := Z;
  Cluster := Z;
  Rng := Z;
  Data := Z;
  Tracking := list (string * string * string);
  manual_seed := fun seed => seed;
  randn := fun _ r => (r, r + 1);
  select_device := fun _ local_rank _ c =>
    if local_rank <? -1 then None else Some (local_rank, 1, c);
  wrap_model := fun _ _ _ _ c => Some c;
  world_size := fun c => c;
  open_run := fun uri experiment run t => Some ((uri, experiment, run) :: t);
  load_vocab := enumerate_vocab;
  encoder_shapes := fun name vocabulary =>
    if String.eqb name "bert"
    then Some [("embeddings.word_embeddings.weight", [vocabulary; 768])]
    else None;
  head_shapes := fun dims =>
    match dims with
    | [i; o] => [("weight", [o; i]); ("bias", [o])]
    | _ => []
    end;
  count_samples := fun lines => 100 * Z.of_nat (length lines);
  takes_files := fun _ _ => true
|}.

#[export] Instance training : TrainingLoop := {|
  run_epochs := fun _ _ _ r t m => Some (m, r + 1, t);
  latest_checkpoint := fun _ => None
|}.

(** The same back end, except that device selection does not look at the
    local rank. *)
Definition rank_blind : Backend := {|
  Device := Z;
  Cluster := Z;
  Rng := Z;
  Data := Z;
  Tracking := list (string * string * string);
  manual_seed := @manual_seed backend;
  randn := @randn backend;
  select_device := fun _ _ _ c => Some (0, 1, c);
  wrap_model := @wrap_model backend;
  world_size := @world_size backend;
  open_run := @open_run backend;
  load_vocab := @load_vocab backend;
  encoder_shapes := @encoder_shapes backend;
  head_shapes := @head_shapes backend;
  count_samples := @count_samples backend;
  takes_files := @takes_files backend
|}.

Definition rank_blind_training : @TrainingLoop rank_blind :=
  @Build_TrainingLoop rank_blind
    (fun _ _ _ (r : Z) t m => Some (m, r + 1, t))
    (fun _ => None).

Definition fs : gmap Path (list string) :=
  {[ "data/lm_finetune_nips/bert-base-uncased-vocab.txt" := ["[PAD]"; "[UNK]"; "the"];
     "data/lm_finetune_nips/train.txt" := ["a b"; "c d"; ""; "e f"; "g h"] ]}.

Definition world (args : list string) : World := boot args fs ∅ 2 0 [].

(** The model the script assembles in this world. *)
Definition model : AdaptiveModel :=
  mkAdaptiveModel
    (mkLanguageModel "bert" 3
       [("embeddings.word_embeddings.weight", mkTensor [3; 768] 39)])
    [mkPredictionHead BertLMHead [768; 3] None
       [("weight", mkTensor [3; 768] 40); ("bias", mkTensor [3] 41)];
     mkPredictionHead NextSentenceHead [768; 2] (Some "nextsentence")
       [("weight", mkTensor [2; 768] 42); ("bias", mkTensor [2] 43)]]
    0.1%float ["per_token"; "per_sequence"] (-1).

End Toy.


(** * Properties *)

(** ** The command line *)

(** *** Decimal literals *)

Fixpoint all_digits (s : string) : bool :=
  match s with
  | EmptyString => true
  | String c r => argparse.is_digit c && all_digits r
  end.

(** A decimal literal without sign: at least one digit, and digits only. *)
Definition literal (s : string) : Prop :=
  exists c r, s = String c r /\ argparse.is_digit c = true /\ all_digits r = true.

Lemma digit_cases (c : ascii) :
  argparse.is_digit c = true ->
  In c ["0"; "1"; "2"; "3"; "4"; "5"; "6"; "7"; "8"; "9"]%char.
Proof.
  destruct c as [[] [] [] [] [] [] [] []]; intros Hc; try discriminate Hc; cbn; tauto.
Qed.

Lemma digit_no_space (c : ascii) :
  argparse.is_digit c = true -> argparse.is_space c = false.
Proof.
  intros Hc. apply digit_cases in Hc. cbn in Hc.
  repeat (destruct Hc as [<- | Hc]; [reflexivity|]). contradiction.
Qed.

Lemma all_digits_uint (d : Decimal.uint) : all_digits (NilEmpty.string_of_uint d) = true.
Proof. induction d; cbn [NilEmpty.string_of_uint all_digits]; auto. Qed.

Lemma literal_uint (d : Decimal.uint) : literal (NilZero.string_of_uint d).
Proof.
  destruct d; cbn [NilZero.string_of_uint NilEmpty.string_of_uint];
    eexists _, _; (split; [reflexivity|]); (split; [reflexivity|]);
    try reflexivity; apply all_digits_uint.
Qed.

Lemma rstrip_digits (s : string) : all_digits s = true -> argparse.rstrip s = s.
Proof.
  induction s as [|c r IH]; [reflexivity|]. cbn [all_digits argparse.rstrip].
  intros Hs. apply andb_true_iff in Hs as [Hc Hr]. rewrite (IH Hr).
  destruct r; [now rewrite (digit_no_space c Hc)|reflexivity].
Qed.

Lemma digits_digits (s : string) (b : bool) :
  all_digits s = true -> s <> "" \/ b = true -> argparse.digits s b = Some s.
Proof.
  revert b. induction s as [|c r IH]; intros b Hs Hb.
  - destruct Hb as [Hb | ->]; [contradiction|reflexivity].
  - cbn [all_digits] in Hs. apply andb_true_iff in Hs as [Hc Hr].
    cbn [argparse.digits]. rewrite Hc, (IH true Hr) by now right. reflexivity.
Qed.

(** [int] of a literal, with or without a minus sign before it. *)
Lemma int_literal (d : Decimal.uint) :
  d <> Decimal.Nil ->
  argparse.int (NilZero.string_of_uint d) = Some (Z.of_uint d)
  /\ argparse.int (String "-" (NilZero.string_of_uint d)) = Some (- Z.of_uint d).
Proof.
  intros Hd. pose proof (NilZero.usu d Hd) as Hu.
  destruct (literal_uint d) as (c & r & E & Hc & Hr). rewrite E in *.
  assert (Hs : argparse.rstrip (String c r) = String c r).
  { apply rstrip_digits. cbn. now rewrite Hc, Hr. }
  assert (Hg : argparse.digits (String c r) false = Some (String c r)).
  { apply digits_digits; [cbn; now rewrite Hc, Hr|now left]. }
  split.
  - unfold argparse.int. cbn [argparse.lstrip]. rewrite (digit_no_space c Hc), Hs.
    assert (Hm : Ascii.eqb c "-" = false /\ Ascii.eqb c "+" = false).
    { apply digit_cases in Hc. cbn in Hc.
      repeat (destruct Hc as [<- | Hc]; [split; reflexivity|]). contradiction. }
    destruct Hm as [-> ->]. rewrite Hg. cbv [mbind option_bind]. now rewrite Hu.
  - unfold argparse.int. cbn [argparse.lstrip].
    change (argparse.is_space "-") with false. cbv iota.
    assert (Hs' : argparse.rstrip (String "-" (String c r)) = String "-" (String c r)).
    { change (argparse.rstrip (String "-" (String c r)))
        with (match argparse.rstrip (String c r) with
              | EmptyString =>
                  if argparse.is_space "-" then EmptyString else String "-" EmptyString
              | String a r' => String "-" (String a r')
              end).
      now rewrite Hs. }
    rewrite Hs'. change (Ascii.eqb "-" "-") with true. cbv iota. rewrite Hg.
    cbv [mbind option_bind]. now rewrite Hu.
Qed.

(** [int(str(v))] is [v]. *)
Lemma int_str (v : Z) : argparse.int (str v) = Some v.
Proof.
  unfold str. destruct v as [|p|p]; cbn [Z.to_int NilZero.string_of_int].
  - reflexivity.
  - rewrite (proj1 (int_literal (Pos.to_uint p) (Unsigned.to_uint_nonnil p))).
    unfold Z.of_uint. now rewrite Unsigned.of_to.
  - rewrite (proj2 (int_literal (Pos.to_uint p) (Unsigned.to_uint_nonnil p))).
    unfold Z.of_uint. now rewrite Unsigned.of_to.
Qed.

(** [str(v)] is a literal, after a minus sign when [v] is negative. *)
Lemma str_literal (v : Z) :
  literal (str v) \/ exists s, str v = String "-" s /\ literal s.
Proof.
  unfold str. destruct v as [|p|p]; cbn [Z.to_int NilZero.string_of_int].
  - left. apply (literal_uint (Decimal.D0 Decimal.Nil)).
  - left. apply literal_uint.
  - right. eexists. split; [reflexivity|apply literal_uint].
Qed.

Lemma skip_digits_digits (s : string) :
  all_digits s = true -> argparse.skip_digits s = "".
Proof.
  induction s as [|c r IH]; [reflexivity|]. cbn [all_digits argparse.skip_digits].
  intros Hs. apply andb_true_iff in Hs as [-> Hr]. auto.
Qed.

Lemma split_eq_digits (s : string) :
  all_digits s = true -> argparse.split_eq s = (s, None).
Proof.
  induction s as [|c r IH]; [reflexivity|]. cbn [all_digits argparse.split_eq].
  intros Hs. apply andb_true_iff in Hs as [Hc Hr]. rewrite (IH Hr).
  apply digit_cases in Hc. cbn in Hc.
  repeat (destruct Hc as [<- | Hc]; [reflexivity|]). contradiction.
Qed.

(** The parser [parse_arguments] builds. *)
Local Abbreviation local_rank_parser :=
  (argparse.add_argument argparse.new
     (argparse.mkAction "--local_rank" argparse.int (-1)
        "local_rank for distributed training on gpus")).

Section CommandLine.
Context `{TrainingLoop}.

(** *** The first pass *)

(** The only usage error of the first pass is that of status 2. *)
Lemma parse_optional_exit (p : argparse.ArgumentParser) (tok : string) (code : Z) :
  argparse.parse_optional p tok = argparse.SystemExit code -> code = 2.
Proof.
  unfold argparse.parse_optional. destruct tok as [|c r]; [discriminate|].
  destruct (negb _); [discriminate|].
  destruct (argparse.lookup_option p _); [discriminate|].
  destruct r as [|c' r']; [discriminate|].
  destruct (argparse.split_eq _) as [o [e|]].
  - destruct (argparse.lookup_option p o); [discriminate|].
    destruct (argparse.get_option_tuples p _) as [|t [|t' l]].
    + destruct (argparse.negative_number _); [discriminate|].
      destruct (argparse.contains_space _); discriminate.
    + discriminate.
    + intros E. now injection E as <-.
  - destruct (argparse.get_option_tuples p _) as [|t [|t' l]].
    + destruct (argparse.negative_number _); [discriminate|].
      destruct (argparse.contains_space _); discriminate.
    + discriminate.
    + intros E. now injection E as <-.
Qed.

Lemma scan_exit (p : argparse.ArgumentParser) (args : list string) (code : Z) :
  argparse.scan p args = argparse.SystemExit code -> code = 2.
Proof.
  induction args as [|tok rest IH]; [discriminate|]. cbn [argparse.scan].
  destruct (String.eqb tok "--"); [discriminate|].
  destruct (argparse.parse_optional p tok) as [t|c] eqn:Ht.
  - destruct (argparse.scan p rest); [discriminate|].
    intros E. injection E as <-. now apply IH.
  - intros E. injection E as <-. exact (parse_optional_exit _ _ _ Ht).
Qed.

(** A token that does not start with a dash is an argument. *)
Lemma parse_optional_positional (p : argparse.ArgumentParser) (tok : string) :
  String.prefix "-" tok = false ->
  String.eqb tok "--" = false
  /\ argparse.parse_optional p tok = argparse.Parsed argparse.TArgument.
Proof.
  destruct tok as [|c r]; [intros _; split; reflexivity|].
  intros Hp.
  assert (Hc : Ascii.eqb c "-" = false).
  { apply Ascii.eqb_neq. intros ->. destruct r; discriminate Hp. }
  split; [cbn; now rewrite Hc|].
  unfold argparse.parse_optional. now rewrite Hc.
Qed.

(** A decimal literal, signed or not, is an argument. *)
Lemma parse_optional_literal (s : string) :
  literal s ->
  argparse.parse_optional local_rank_parser s = argparse.Parsed argparse.TArgument
  /\ argparse.parse_optional local_rank_parser (String "-" s)
     = argparse.Parsed argparse.TArgument
  /\ String.eqb s "--" = false
  /\ String.eqb (String "-" s) "--" = false.
Proof.
  intros (c & r & -> & Hc & Hr).
  pose proof (split_eq_digits r Hr) as Hsplit.
  pose proof (skip_digits_digits r Hr) as Hskip.
  apply digit_cases in Hc. cbn in Hc.
  repeat (destruct Hc as [<- | Hc];
          [ repeat split; try reflexivity;
            unfold argparse.parse_optional;
            cbn [negb Ascii.eqb Bool.eqb argparse.split_eq];
            change (argparse.lookup_option local_rank_parser (String "-" (String _ r)))
              with (@None (option argparse.Action));
            cbv iota; rewrite Hsplit;
            change (argparse.get_option_tuples local_rank_parser (String "-" (String _ r)))
              with (@nil argparse.Token);
            cbv iota; unfold argparse.negative_number, argparse.digits_to_end;
            rewrite Hskip; reflexivity |]).
  contradiction.
Qed.

Lemma parse_optional_str (v : Z) :
  String.eqb (str v) "--" = false
  /\ argparse.parse_optional local_rank_parser (str v)
     = argparse.Parsed argparse.TArgument.
Proof.
  destruct (str_literal v) as [Hl | (s & -> & Hl)];
    destruct (parse_optional_literal _ Hl) as (H1 & H2 & H3 & H4); auto.
Qed.


(** *** The options of the script's parser *)

(** The only action of the parser is that of [--local_rank]. *)
Definition for_local_rank (x : string * argparse.Token) : Prop :=
  match x.2 with
  | argparse.TOption (Some a) _ _ => argparse.dest a = "local_rank"
  | _ => True
  end.

Lemma lookup_option_local_rank (s : string) (a : argparse.Action) :
  argparse.lookup_option local_rank_parser s = Some (Some a) ->
  argparse.dest a = "local_rank".
Proof.
  unfold argparse.lookup_option, argparse.option_string_actions,
    argparse.add_argument, argparse.new.
  cbn [argparse.actions app map List.find fst snd].
  repeat (destruct (String.eqb _ s); [intros E; inversion E; reflexivity|]).
  discriminate.
Qed.

Lemma get_option_tuples_local_rank (tok : string) :
  Forall (fun t => for_local_rank (tok, t))
         (argparse.get_option_tuples local_rank_parser tok).
Proof.
  unfold argparse.get_option_tuples, argparse.option_string_actions,
    argparse.add_argument, argparse.new.
  cbn [argparse.actions app map fst snd].
  destruct (String.prefix "--" tok).
  - destruct (argparse.split_eq tok) as [o e]. cbn [omap list_omap fst snd].
    repeat (destruct (String.prefix o _); cbn [omap list_omap]);
      repeat constructor.
  - cbn [omap list_omap fst snd].
    repeat (destruct (String.eqb _ _); cbn [omap list_omap]);
      repeat (destruct (String.prefix tok _); cbn [omap list_omap]);
      repeat constructor.
Qed.

Lemma parse_optional_local_rank (tok : string) (t : argparse.Token) :
  argparse.parse_optional local_rank_parser tok = argparse.Parsed t ->
  for_local_rank (tok, t).
Proof.
  unfold argparse.parse_optional. destruct tok as [|c r].
  { intros E. injection E as <-. exact I. }
  destruct (negb _). { intros E. injection E as <-. exact I. }
  destruct (argparse.lookup_option local_rank_parser (String c r)) as [[a|]|] eqn:Hl.
  { intros E. injection E as <-. exact (lookup_option_local_rank _ _ Hl). }
  { intros E. injection E as <-. exact I. }
  destruct r as [|c' r']. { intros E. injection E as <-. exact I. }
  pose proof (get_option_tuples_local_rank (String c (String c' r'))) as Ht.
  assert (Hrest :
    match argparse.get_option_tuples local_rank_parser (String c (String c' r')) with
    | [] =>
        if argparse.negative_number (String c (String c' r'))
        then argparse.Parsed argparse.TArgument
        else if argparse.contains_space (String c (String c' r'))
             then argparse.Parsed argparse.TArgument
             else argparse.Parsed argparse.TUnknown
    | [t] => argparse.Parsed t
    | _ => argparse.SystemExit 2
    end = argparse.Parsed t -> for_local_rank (String c (String c' r'), t)).
  { destruct (argparse.get_option_tuples _ _) as [|t0 [|t1 l]].
    - destruct (argparse.negative_number _);
        [|destruct (argparse.contains_space _)];
        intros E; injection E as <-; exact I.
    - intros E. injection E as <-. now inversion Ht.
    - discriminate. }
  destruct (argparse.split_eq _) as [o [e|]]; [|exact Hrest].
  destruct (argparse.lookup_option local_rank_parser o) as [[a|]|] eqn:Ho;
    [|intros E; injection E as <-; exact I|exact Hrest].
  intros E. injection E as <-. exact (lookup_option_local_rank _ _ Ho).
Qed.

Lemma scan_local_rank (args : list string) :
  forall toks, argparse.scan local_rank_parser args = argparse.Parsed toks ->
               Forall for_local_rank toks.
Proof.
  induction args as [|tok rest IH]; intros toks.
  { intros E. injection E as <-. constructor. }
  cbn [argparse.scan]. destruct (String.eqb tok "--").
  { intros E. injection E as <-. constructor; [exact I|].
    apply Forall_map, Forall_forall. intros s _. exact I. }
  destruct (argparse.parse_optional local_rank_parser tok) as [t|] eqn:Ht;
    [|discriminate].
  destruct (argparse.scan local_rank_parser rest) as [ts|]; [|discriminate].
  intros E. injection E as <-. constructor; [|now apply IH].
  exact (parse_optional_local_rank _ _ Ht).
Qed.

(** *** The second pass *)

Lemma consume_local_rank (n : nat) :
  forall (toks : list (string * argparse.Token)) (ns : argparse.Namespace)
         (extras : bool),
    (length toks <= n)%nat ->
    Forall for_local_rank toks ->
    dom ns = ({[ "local_rank" ]} : gset string) ->
    match argparse.consume local_rank_parser ns extras toks with
    | argparse.Parsed ns' => dom ns' = ({[ "local_rank" ]} : gset string)
    | argparse.SystemExit code => code = 0 \/ code = 2
    end.
Proof.
  induction n as [|n IH]; intros toks ns extras Hn Htoks Hdom.
  - destruct toks; [|cbn in Hn; lia]. cbn. destruct extras; auto.
  - destruct toks as [|[tok t] rest]; [cbn; destruct extras; auto|].
    cbn in Hn. apply Forall_cons in Htoks as [Ht Hrest].
    destruct t as [[a|] o [e|]| | |]; cbn [argparse.consume].
    + destruct (argparse.type a e); [|auto].
      apply IH; [lia|assumption|]. unfold for_local_rank in Ht. cbn in Ht.
      rewrite dom_insert_L, Ht, Hdom. apply (idemp_L (∪)).
    + destruct rest as [|[v [| | |]] rest']; auto.
      destruct (argparse.type a v); [|auto].
      apply Forall_cons in Hrest as [_ Hrest'].
      apply IH; [cbn in Hn; lia|assumption|]. unfold for_local_rank in Ht. cbn in Ht.
      rewrite dom_insert_L, Ht, Hdom. apply (idemp_L (∪)).
    + destruct (_ && _); auto.
    + auto.
    + apply IH; [lia|assumption|assumption].
    + apply IH; [lia|assumption|assumption].
    + apply IH; [lia|assumption|assumption].
Qed.

(** Whatever the command line, a namespace that is returned has
    [local_rank] as its only attribute, and the process otherwise exits
    with status 0 or 2. *)
Lemma parse_args_local_rank (args : list string) :
  match argparse.parse_args local_rank_parser args with
  | argparse.Parsed ns => dom ns = ({[ "local_rank" ]} : gset string)
  | argparse.SystemExit code => code = 0 \/ code = 2
  end.
Proof.
  unfold argparse.parse_args.
  destruct (argparse.scan local_rank_parser args) as [toks|code] eqn:Hs.
  - apply (consume_local_rank (length toks)); [lia|exact (scan_local_rank _ _ Hs)|].
    apply dom_singleton_L.
  - right. exact (scan_exit _ _ _ Hs).
Qed.

Lemma defaults_local_rank :
  argparse.defaults local_rank_parser = {[ "local_rank" := -1 ]}.
Proof. reflexivity. Qed.

Lemma parse_absent :
  argparse.parse_args local_rank_parser [] = argparse.Parsed {[ "local_rank" := -1 ]}.
Proof. reflexivity. Qed.

(** One step of both passes at a spelling of the flag followed by its
    value. *)
Lemma scan_flag_value (flag : string) (v : Z) (rest : list string) :
  String.eqb flag "--" = false ->
  argparse.parse_optional local_rank_parser flag
  = argparse.Parsed
      (argparse.TOption
         (Some (argparse.mkAction "--local_rank" argparse.int (-1)
                  "local_rank for distributed training on gpus"))
         "--local_rank" None) ->
  argparse.scan local_rank_parser (flag :: str v :: rest)
  = match argparse.scan local_rank_parser rest with
    | argparse.Parsed ts =>
        argparse.Parsed
          ((flag,
            argparse.TOption
              (Some (argparse.mkAction "--local_rank" argparse.int (-1)
                       "local_rank for distributed training on gpus"))
              "--local_rank" None)
           :: (str v, argparse.TArgument) :: ts)
    | argparse.SystemExit code => argparse.SystemExit code
    end.
Proof.
  intros Hdd Hflag. destruct (parse_optional_str v) as [Hv1 Hv2].
  cbn [argparse.scan]. rewrite Hdd, Hflag, Hv1, Hv2.
  destruct (argparse.scan local_rank_parser rest); reflexivity.
Qed.

Lemma consume_flag_value (flag o : string) (v : Z) (ns : gmap string Z) (extras : bool)
    (ts : list (string * argparse.Token)) :
  argparse.consume local_rank_parser ns extras
    ((flag,
      argparse.TOption
        (Some (argparse.mkAction "--local_rank" argparse.int (-1)
                 "local_rank for distributed training on gpus")) o None)
     :: (str v, argparse.TArgument) :: ts)
  = argparse.consume local_rank_parser (<[ "local_rank" := v ]> ns) extras ts.
Proof. cbn [argparse.consume argparse.type]. now rewrite int_str. Qed.

Lemma scan_flag_eq_value (s : string) (rest : list string) :
  argparse.scan local_rank_parser (("--local_rank=" +:+ s) :: rest)
  = match argparse.scan local_rank_parser rest with
    | argparse.Parsed ts =>
        argparse.Parsed
          (("--local_rank=" +:+ s,
            argparse.TOption
              (Some (argparse.mkAction "--local_rank" argparse.int (-1)
                       "local_rank for distributed training on gpus"))
              "--local_rank" (Some s))
           :: ts)
    | argparse.SystemExit code => argparse.SystemExit code
    end.
Proof.
  cbn [argparse.scan].
  change (String.eqb ("--local_rank=" +:+ s) "--") with false. cbv iota.
  change (argparse.parse_optional local_rank_parser ("--local_rank=" +:+ s))
    with (argparse.Parsed
            (argparse.TOption
               (Some (argparse.mkAction "--local_rank" argparse.int (-1)
                        "local_rank for distributed training on gpus"))
               "--local_rank" (Some s))).
  destruct (argparse.scan local_rank_parser rest); reflexivity.
Qed.

Lemma consume_flag_eq_value (tok o : string) (v : Z) (ns : gmap string Z) (extras : bool)
    (ts : list (string * argparse.Token)) :
  argparse.consume local_rank_parser ns extras
    ((tok,
      argparse.TOption
        (Some (argparse.mkAction "--local_rank" argparse.int (-1)
                 "local_rank for distributed training on gpus")) o (Some (str v)))
     :: ts)
  = argparse.consume local_rank_parser (<[ "local_rank" := v ]> ns) extras ts.
Proof. cbn [argparse.consume argparse.type]. now rewrite int_str. Qed.

Lemma parse_present (v : Z) :
  argparse.parse_args local_rank_parser ["--local_rank"; str v]
  = argparse.Parsed {[ "local_rank" := v ]}.
Proof.
  unfold argparse.parse_args. rewrite scan_flag_value by reflexivity.
  cbn [argparse.scan]. rewrite consume_flag_value, defaults_local_rank.
  now rewrite insert_singleton_eq.
Qed.

Lemma parse_present_eq (v : Z) :
  argparse.parse_args local_rank_parser ["--local_rank=" +:+ str v]
  = argparse.Parsed {[ "local_rank" := v ]}.
Proof.
  unfold argparse.parse_args. rewrite scan_flag_eq_value.
  cbn [argparse.scan]. rewrite consume_flag_eq_value, defaults_local_rank.
  now rewrite insert_singleton_eq.
Qed.

Lemma parse_arguments_run (w : World) :
  parse_arguments w
  = match argparse.parse_args local_rank_parser (argv w) with
    | argparse.Parsed ns => (Ok ns, w)
    | argparse.SystemExit code => (Err (SystemExit code), w)
    end.
Proof.
  unfold parse_arguments, parse_args, mbind, M_bind, bind, get, mret, M_ret, ret, raise.
  destruct (argparse.parse_args local_rank_parser (argv w)); reflexivity.
Qed.

(** C6.  The parser of [parse_arguments] declares one option,
    [--local_rank], converted by [int], with default -1.  Without the
    flag the namespace holds [local_rank = -1]; with [--local_rank v] (or
    [--local_rank=v]) it holds [local_rank = v], for every integer [v].
    Whatever the command line, a namespace that is returned has
    [local_rank] as its only attribute, and otherwise the process exits
    with status 0 (help) or 2 (usage error). *)
Theorem parse_arguments_local_rank (w : World) (v : Z) :
  (exists p : argparse.ArgumentParser,
     argparse.actions p
     = [argparse.mkAction "--local_rank" argparse.int (-1)
          "local_rank for distributed training on gpus"]
     /\ forall w' : World,
          parse_arguments w'
          = match argparse.parse_args p (argv w') with
            | argparse.Parsed ns => (Ok ns, w')
            | argparse.SystemExit code => (Err (SystemExit code), w')
            end)
  /\ parse_arguments (set_argv [] w) = (Ok {[ "local_rank" := -1 ]}, set_argv [] w)
  /\ parse_arguments (set_argv ["--local_rank"; str v] w)
     = (Ok {[ "local_rank" := v ]}, set_argv ["--local_rank"; str v] w)
  /\ parse_arguments (set_argv ["--local_rank=" +:+ str v] w)
     = (Ok {[ "local_rank" := v ]}, set_argv ["--local_rank=" +:+ str v] w)
  /\ (forall args : list string,
        match parse_arguments (set_argv args w) with
        | (Ok ns, w') =>
            dom ns = ({[ "local_rank" ]} : gset string) /\ w' = set_argv args w
        | (Err e, _) => e = SystemExit 0 \/ e = SystemExit 2
        end).
Proof.
  split; [|split; [|split; [|split]]].
  - exists local_rank_parser. split; [reflexivity|]. exact parse_arguments_run.
  - rewrite parse_arguments_run. cbn [argv set_argv]. now rewrite parse_absent.
  - rewrite parse_arguments_run. cbn [argv set_argv]. now rewrite parse_present.
  - rewrite parse_arguments_run. cbn [argv set_argv]. now rewrite parse_present_eq.
  - intros args. rewrite parse_arguments_run. cbn [argv set_argv].
    pose proof (parse_args_local_rank args) as Hc.
    destruct (argparse.parse_args local_rank_parser args).
    + split; [exact Hc|reflexivity].
    + destruct Hc as [-> | ->]; auto.
Qed.

End CommandLine.

(** ** Running the script *)

(** Unfolding of the monad and of the operations, and case analysis on what
    the libraries answer. *)
Ltac monad :=
  cbv beta iota zeta delta
    [mbind M_bind bind mret M_ret ret get modify call raise expect
     argv files save_dirs cluster rng tracking objects trace
     set_argv set_save_dirs set_cluster set_rng set_tracking set_objects set_trace
     option_bind from_option fst snd].

Ltac operations :=
  unfold train_from_scratch, boot, logging_basicConfig, MLFlowLogger_new,
    init_experiment, set_all_seeds, initialize_device_settings, BertTokenizer_new,
    BertStyleLMProcessor_new, StreamingDataSilo_new, LanguageModel_from_scratch,
    BertLMHead_new, NextSentenceHead_new, AdaptiveModel_new, get_data_loader, len,
    initialize_optimizer, Trainer_create_or_load_checkpoint, Trainer_train,
    AdaptiveModel_save, Processor_save, open_dataset, getattr.

Section Running.
Context `{TrainingLoop}.

Lemma init_parameters_run l a f d c r t o tr :
  init_parameters l (mkWorld a f d c r t o tr)
  = (Ok (draw l r).1, mkWorld a f d c (draw l r).2 t o tr).
Proof.
  revert r. induction l as [|[name sh] l IH]; intros r; [reflexivity|].
  change (init_parameters ((name, sh) :: l))
    with (t ← init_tensor sh; ps ← init_parameters l; mret ((name, t) :: ps)).
  cbn [draw]. unfold init_tensor. monad.
  destruct (randn sh r) as [dd r1]. monad.
  rewrite IH. destruct (draw l r1). reflexivity.
Qed.

End Running.

Ltac split_run :=
  match goal with
  | |- context [init_parameters ?l (mkWorld ?a ?f ?d ?c ?r ?t ?o ?tr)] =>
      rewrite (init_parameters_run l a f d c r t o tr)
  | p : _ * _ |- _ => destruct p
  | |- context [match ?x with Some _ => _ | None => _ end] =>
      let E := fresh "E" in destruct x eqn:E
  | |- context [if ?b then _ else _] =>
      lazymatch type of b with
      | bool => let E := fresh "E" in destruct b eqn:E
      end
  end.

(** Every way the run of the script from a fresh process can go. *)
Ltac execute :=
  operations; monad; rewrite ?parse_arguments_run; cbn [argv];
  match goal with
  | |- context [argparse.parse_args ?p ?a] =>
      let Hparse := fresh "Hparse" in
      destruct (argparse.parse_args p a) eqn:Hparse
  end;
  monad; cbn; repeat (split_run; monad; cbn).

Ltac run_script :=
  lazymatch goal with
  | |- context [train_from_scratch ?w] =>
      let out := fresh "out" in
      let fin := fresh "fin" in
      let Hrun := fresh "Hrun" in
      destruct (train_from_scratch w) as [out fin] eqn:Hrun;
      revert Hrun; execute; intros Hrun; injection Hrun as <- <-; cbn
  end.

Section Assembly.
Context `{TrainingLoop}.

Lemma assembled_inv a f d c r t (m : AdaptiveModel) :
  assembled (trace (train_from_scratch (boot a f d c r t)).2) = Some m ->
  exists ns z dev n_gpu c1 lines table,
    parse_arguments (boot a f d c r t) = (Ok ns, boot a f d c r t)
    /\ ns !! "local_rank" = Some z
    /\ select_device true z None c = Some (dev, n_gpu, c1)
    /\ f !! path_join "data/lm_finetune_nips" "bert-base-uncased-vocab.txt" = Some lines
    /\ let tok := mkBertTokenizer (load_vocab lines) true in
       encoder_shapes "bert" (vocab_size tok) = Some table
       /\ let lm := draw table (manual_seed 39) in
          let h1 := draw (head_shapes [768; vocab_size tok]) lm.2 in
          let h2 := draw (head_shapes [768; 2]) h1.2 in
          m = mkAdaptiveModel
                (mkLanguageModel "bert" (vocab_size tok) lm.1)
                [mkPredictionHead BertLMHead [768; vocab_size tok] None h1.1;
                 mkPredictionHead NextSentenceHead [768; 2] (Some "nextsentence") h2.1]
                0.1%float ["per_token"; "per_sequence"] dev.
Proof.
  rewrite parse_arguments_run. cbn [argv boot].
  run_script; intros Hm; try discriminate Hm.
  all: injection Hm as <-; repeat eexists; eauto.
Qed.

(** C1.  When the model is assembled, the output layer of its masked-LM
    head is as wide as the vocabulary of the tokenizer built earlier in
    the run from the vocabulary file, whatever that file holds and however
    the tokenizer library reads it; the base encoder is sized to the same
    vocabulary. *)
Theorem output_layer_matches_vocabulary a f d c r t (m : AdaptiveModel) :
  assembled (trace (train_from_scratch (boot a f d c r t)).2) = Some m ->
  exists lines lm_head ns_head,
    f !! path_join "data/lm_finetune_nips" "bert-base-uncased-vocab.txt" = Some lines
    /\ let tok := mkBertTokenizer (load_vocab lines) true in
       prediction_heads m = [lm_head; ns_head]
       /\ head_class lm_head = BertLMHead
       /\ output_width lm_head = vocab_size tok
       /\ lm_vocab_size (language_model m) = vocab_size tok.
Proof.
  intros Hm. apply assembled_inv in Hm.
  destruct Hm as (ns & z & dev & n_gpu & c1 & lines & table
                  & _ & _ & _ & Hlines & _ & ->).
  exists lines. eexists. eexists. repeat split. exact Hlines.
Qed.

(** C2.  Two runs with the same command line, files and accelerators
    assemble the same model, with the same initial parameters, whatever
    the random generators, the tracking service and the save directories
    held when each run started: the script seeds the generators with 39
    before anything draws from them. *)
Theorem seed_determinism a f c d1 d2 r1 r2 t1 t2 (m1 m2 : AdaptiveModel) :
  assembled (trace (train_from_scratch (boot a f d1 c r1 t1)).2) = Some m1 ->
  assembled (trace (train_from_scratch (boot a f d2 c r2 t2)).2) = Some m2 ->
  m1 = m2
  /\ parameters m1 = parameters m2
  /\ exists table,
       encoder_shapes "bert" (lm_vocab_size (language_model m1)) = Some table
       /\ lm_parameters (language_model m1) = (draw table (manual_seed 39)).1.
Proof.
  intros Hm1 Hm2. apply assembled_inv in Hm1, Hm2.
  destruct Hm1 as (ns & z & dev & n_gpu & c1 & lines & table
                   & Hp & Hz & Hdev & Hlines & Htable & ->).
  destruct Hm2 as (ns' & z' & dev' & n_gpu' & c1' & lines' & table'
                   & Hp' & Hz' & Hdev' & Hlines' & Htable' & ->).
  rewrite parse_arguments_run in Hp, Hp'. cbn [argv boot] in Hp, Hp'.
  destruct (argparse.parse_args _ a); [|discriminate Hp].
  injection Hp as <-. injection Hp' as <-.
  rewrite Hz in Hz'. injection Hz' as <-.
  rewrite Hdev in Hdev'. injection Hdev' as <- <- <-.
  rewrite Hlines in Hlines'. injection Hlines' as <-.
  cbv zeta in Htable, Htable'. rewrite Htable in Htable'. injection Htable' as <-.
  split; [reflexivity|]. split; [reflexivity|].
  exists table. split; [exact Htable|reflexivity].
Qed.

End Assembly.


Section Wiring.
Context `{TrainingLoop}.

(** C9.  Once the command line is parsed and logging is configured, the
    first thing the script does is to open a run at the tracking URI it
    configures (the empty string), under the experiment name
    "train_from_scratch" and the run name "run"; no other call opens a run
    afterwards, and nothing else happens when the service refuses. *)
Theorem tracking_run_opened_at_start a f d c r t :
  let res := train_from_scratch (boot a f d c r t) in
  match (parse_arguments (boot a f d c r t)).1 with
  | Err _ => trace res.2 = []
  | Ok _ =>
      exists rest,
        trace res.2
        = CallBasicConfig "%(asctime)s - %(levelname)s - %(name)s -   %(message)s"
            "%m/%d/%Y %H:%M:%S" 20
          :: CallMLFlowLogger ""
          :: CallInitExperiment (mkMLFlowLogger "") "train_from_scratch" "run"
          :: rest
        /\ Forall (fun c => match c with
                            | CallMLFlowLogger _ | CallInitExperiment _ _ _ => False
                            | _ => True
                            end) rest
        /\ match open_run "" "train_from_scratch" "run" t with
           | Some _ => True
           | None => rest = []
           end
  end.
Proof.
  cbv zeta. run_script; try reflexivity.
  all: eexists; split; [reflexivity|]; split; [repeat constructor|];
    try rewrite E; try exact I; try reflexivity.
Qed.

(** C8.  The mixed-precision flag is the inert value [None] at each of its
    consumers: the calls that take the flag are, in this order, device
    initialization, optimizer initialization and the creation of the
    trainer, each receives [None], and a run that ends early has made the
    first of them only. *)
Theorem mixed_precision_disabled a f d c r t :
  let res := train_from_scratch (boot a f d c r t) in
  Forall (fun c => use_amp_of c = None \/ use_amp_of c = Some None) (trace res.2)
  /\ omap use_amp_of (trace res.2) `prefix_of` [None; None; None]
  /\ match res.1 with
     | Ok _ => omap use_amp_of (trace res.2) = [None; None; None]
     | Err _ => True
     end.
Proof.
  cbv zeta. run_script.
  all: split; [repeat (apply Forall_cons; split; [cbn; auto|]); constructor|].
  all: split; [|try exact I; try reflexivity].
  all: first [ by exists [None; None; None]
             | by exists [None; None]
             | by exists [None]
             | by exists [] ].
Qed.

(** C10.  The processor is built with neither a dev file nor a test file,
    so that the silo the trainer receives has no dataset under the names
    dev and test, while the trainer is asked to evaluate every 10000
    steps. *)
Theorem no_held_out_dataset a f d c r t :
  let res := train_from_scratch (boot a f d c r t) in
  Forall (fun c =>
            match c with
            | CallBertStyleLMProcessor _ _ _ _ dev test => dev = None /\ test = None
            | CallCreateOrLoadCheckpoint _ _ silo _ _ _ evaluate_every _ _ _ _ _ =>
                evaluate_every = 10000
                /\ dataset_file (processor silo) "dev" = None
                /\ dataset_file (processor silo) "test" = None
            | CallTrain trainer =>
                trainer_evaluate_every trainer = 10000
                /\ dev_filename (processor (trainer_data_silo trainer)) = None
                /\ test_filename (processor (trainer_data_silo trainer)) = None
            | _ => True
            end) (trace res.2)
  /\ match res.1 with
     | Ok _ =>
         Exists (fun c => match c with CallBertStyleLMProcessor _ _ _ _ _ _ => True
                                     | _ => False end) (trace res.2)
         /\ Exists (fun c => match c with CallTrain _ => True | _ => False end)
              (trace res.2)
     | Err _ => True
     end.
Proof.
  cbv zeta. run_script.
  all: split; [repeat constructor|try exact I].
  split; repeat first [ by apply Exists_cons_hd | apply Exists_cons_tl ].
Qed.

(** What contradicts an answer of a library. *)
Ltac refuted :=
  match goal with
  | E : run_epochs ?a ?b ?c ?d ?e ?f = None,
    Hr : forall _ _ _ _ _ _, is_Some (run_epochs _ _ _ _ _ _) |- _ =>
      destruct (Hr a b c d e f) as [? ?]; congruence
  | E : (_ =? 0) = true |- _ => apply Z.eqb_eq in E; simplify_eq; lia
  | _ => congruence
  end.

(** When every library answers, the script runs to its end. *)
Lemma answered_run_completes a f d c r t :
  libraries_answer a f c t -> (train_from_scratch (boot a f d c r t)).1 = Ok tt.
Proof.
  intros (ns & z & dev & n_gpu & c1 & lines & Hp & Hz & [t1 Ht] & Hsel & Hws & Hv
          & [corpus Hc] & [table He] & [c2 Hw] & Hr & Hm & Hpr).
  run_script.
  all: try reflexivity.
  all: exfalso; refuted.
Qed.

(** C7.  Persistence is the last stage.  When every library answers, the
    run completes.  A run that completes ends with the training call
    followed by the two saves, of the model and of the processor, into the
    save directory; no call before them is given a directory to write
    into, the training loop has returned, and the save directory then
    holds the trained model and the processor.  A run that does not
    complete either never reached the saves (no call was given a directory
    to write into, and the save directories are as they were), or failed in
    one of the two saves, which it reached after the training loop had
    returned and after every other call. *)
Theorem persistence_is_last a f d c r t :
  let res := train_from_scratch (boot a f d c r t) in
  let save_dir := "saved_models/train_from_scratch" in
  (libraries_answer a f c t -> res.1 = Ok tt)
  /\ match res.1 with
     | Ok _ =>
         exists pre trainer m proc,
           trace res.2
           = pre ++ [CallTrain trainer; CallModelSave 0%nat save_dir;
                     CallProcessorSave proc save_dir]
           /\ Forall (fun c => written_dir c = None) pre
           /\ trained trainer m
           /\ objects res.2 !! 0%nat = Some m
           /\ save_dirs res.2 = <[save_dir := mkSaveDir (Some m) (Some proc)]> d
     | Err _ =>
         (Forall (fun c => written_dir c = None) (trace res.2)
          /\ save_dirs res.2 = d)
         \/ exists pre trainer m,
              (trace res.2 = pre ++ [CallTrain trainer; CallModelSave 0%nat save_dir]
               \/ exists proc,
                    trace res.2
                    = pre ++ [CallTrain trainer; CallModelSave 0%nat save_dir;
                              CallProcessorSave proc save_dir])
              /\ Forall (fun c => written_dir c = None) pre
              /\ trained trainer m
              /\ objects res.2 !! 0%nat = Some m
     end.
Proof.
  cbv zeta. split; [apply answered_run_completes|].
  run_script.
  all: try (left; split; [solve [repeat constructor]|reflexivity]).
  - eexists (_ :: _ :: _ :: _ :: _ :: _ :: _ :: _ :: _ :: _ :: _ :: _ :: _ :: _ :: _ :: _ :: []).
    do 3 eexists. split; [reflexivity|]. split; [repeat constructor|].
    split; [do 7 eexists; eassumption|]. split; [reflexivity|].
    unfold the_save_dir. rewrite lookup_insert_eq. cbn.
    now rewrite insert_insert_eq.
  - right.
    eexists (_ :: _ :: _ :: _ :: _ :: _ :: _ :: _ :: _ :: _ :: _ :: _ :: _ :: _ :: _ :: _ :: []).
    do 2 eexists. split; [right; eexists; reflexivity|].
    split; [repeat constructor|]. split; [do 7 eexists; eassumption|reflexivity].
  - right.
    eexists (_ :: _ :: _ :: _ :: _ :: _ :: _ :: _ :: _ :: _ :: _ :: _ :: _ :: _ :: _ :: _ :: []).
    do 2 eexists. split; [left; reflexivity|].
    split; [repeat constructor|]. split; [do 7 eexists; eassumption|reflexivity].
Qed.

Lemma ceil_div_spec (a b : Z) :
  0 < b -> b * (ceil_div a b - 1) < a <= b * ceil_div a b.
Proof.
  intros Hb. unfold ceil_div.
  pose proof (Z.div_mod (- a) b ltac:(lia)) as Hdiv.
  pose proof (Z.mod_pos_bound (- a) b Hb) as Hmod.
  nia.
Qed.

(** C3.  The step count of the schedule the run is configured with is the
    number of batches of the training loader, times the epochs, divided by
    the gradient accumulation steps and rounded down, where the number of
    batches is ceil(dataset_size / (batch_size × world_size)) with batch
    size 60, and the script fixes 1 epoch and 4 accumulation steps. *)
Theorem optimizer_step_count a f d c r t (n : Z) :
  let tr := trace (train_from_scratch (boot a f d c r t)).2 in
  configured_steps tr = Some n ->
  exists lines z dev n_gpu c1 loader,
    f !! path_join "data/lm_finetune_nips" "train.txt" = Some lines
    /\ select_device true z None c = Some (dev, n_gpu, c1)
    /\ In (CallLen loader) tr
    /\ corpus loader = lines
    /\ batch_size (loader_silo loader) = 60
    /\ let n_batches := ceil_div (count_samples lines) (60 * world_size c1) in
       optimizer_inputs tr = Some (n_batches, 1, 4)
       /\ n = n_batches * 1 / 4
       /\ 4 * n <= n_batches * 1 < 4 * n + 4
       /\ (0 < world_size c1 ->
           60 * world_size c1 * (n_batches - 1) < count_samples lines
           <= 60 * world_size c1 * n_batches).
Proof.
  cbv zeta. run_script; intros Hn; try discriminate Hn.
  all: injection Hn as <-; unfold dataset_size; cbn [corpus].
  all: eexists _, _, _, _, _, _; split; [reflexivity|]; split; [eassumption|].
  all: split; [repeat first [left; reflexivity | right]|].
  all: split; [reflexivity|]; split; [reflexivity|]; split; [reflexivity|].
  all: unfold total_steps; split; [reflexivity|]; split.
  all: try (intros Hws; apply ceil_div_spec; lia).
  all: match goal with |- context [?x * 1 / 4] =>
         pose proof (Z.div_mod (x * 1) 4 ltac:(lia));
         pose proof (Z.mod_pos_bound (x * 1) 4 ltac:(lia)) end; lia.
Qed.


End Wiring.

Section LocalRank.
Context `{TrainingLoop}.

(** The calls that build and read the data pipeline, as the files alone
    determine them. *)
Definition data_plan (f : gmap Path (list string)) : list Call :=
  let vocab_file := path_join "data/lm_finetune_nips" "bert-base-uncased-vocab.txt" in
  CallBertTokenizer vocab_file true ::
  match f !! vocab_file with
  | None => []
  | Some lines =>
      let proc :=
        mkBertStyleLMProcessor "data/lm_finetune_nips"
          (mkBertTokenizer (load_vocab lines) true) 128 (Some "train.txt") None None in
      let silo := mkStreamingDataSilo proc 60 true in
      let train_file := path_join "data/lm_finetune_nips" "train.txt" in
      CallBertStyleLMProcessor "data/lm_finetune_nips"
        (mkBertTokenizer (load_vocab lines) true) 128 (Some "train.txt") None None ::
      CallStreamingDataSilo proc 60 true ::
      CallGetDataLoader silo "train" ::
      match f !! train_file with
      | None => []
      | Some corpus => [CallLen (mkDataLoader silo train_file corpus)]
      end
  end.

Lemma data_calls_run a f d c r t :
  let res := train_from_scratch (boot a f d c r t) in
  data_calls (trace res.2) `prefix_of` data_plan f
  /\ files res.2 = f
  /\ match res.1 with
     | Ok _ => data_calls (trace res.2) = data_plan f
     | Err _ => True
     end.
Proof.
  cbv zeta. unfold data_plan. run_script.
  all: split; [|split; [reflexivity|try exact I; try reflexivity]].
  all: repeat apply prefix_cons; try apply prefix_nil; reflexivity.
Qed.

(** When device selection and the wrapping of the model treat the rank [v]
    as they treat the default, the two runs differ in nothing but the rank
    recorded at these two calls. *)
Lemma rank_only_wiring f d c r t (v : Z) :
  (forall c', select_device true v None c' = select_device true (-1) None c') ->
  (forall dev c', wrap_model true v None dev c' = wrap_model true (-1) None dev c') ->
  let res_v := train_from_scratch (boot ["--local_rank"; str v] f d c r t) in
  let res_0 := train_from_scratch (boot [] f d c r t) in
  res_v.1 = res_0.1
  /\ map erase_local_rank (trace res_v.2) = map erase_local_rank (trace res_0.2)
  /\ set_trace [] (set_argv [] res_v.2) = set_trace [] (set_argv [] res_0.2).
Proof.
  intros Hsel Hwrap. cbv zeta.
  destruct (train_from_scratch (boot ["--local_rank"; str v] f d c r t))
    as [o1 w1] eqn:H1.
  destruct (train_from_scratch (boot [] f d c r t)) as [o2 w2] eqn:H2.
  revert H1 H2. operations; monad. rewrite !parse_arguments_run. cbn [argv].
  rewrite (parse_present v), parse_absent. monad.
  rewrite !lookup_singleton_eq. monad. cbn.
  repeat (rewrite ?Hsel, ?Hwrap; split_run; monad; cbn).
  all: intros H1 H2; injection H1 as <- <-; injection H2 as <- <-; cbn; auto.
Qed.

(** C4.  For every integer [v], the run with [--local_rank v] and the run
    without the flag make the same calls to build the tokenizer, the
    processor and the data pipeline and to read the training data, as far as
    each run gets, and the same ones when both complete; neither touches the
    files.  The rank is passed into device selection and optimizer
    initialization only: when these two treat [v] as the default, the runs
    end alike, in the same world and with the same calls. *)
Theorem local_rank_changes_only_wiring f d c r t (v : Z) :
  let res_v := train_from_scratch (boot ["--local_rank"; str v] f d c r t) in
  let res_0 := train_from_scratch (boot [] f d c r t) in
  (data_calls (trace res_v.2) `prefix_of` data_calls (trace res_0.2)
   \/ data_calls (trace res_0.2) `prefix_of` data_calls (trace res_v.2))
  /\ match res_v.1, res_0.1 with
     | Ok _, Ok _ => data_calls (trace res_v.2) = data_calls (trace res_0.2)
     | _, _ => True
     end
  /\ files res_v.2 = f
  /\ files res_0.2 = f
  /\ ((forall c', select_device true v None c' = select_device true (-1) None c') ->
      (forall dev c', wrap_model true v None dev c' = wrap_model true (-1) None dev c') ->
      res_v.1 = res_0.1
      /\ map erase_local_rank (trace res_v.2) = map erase_local_rank (trace res_0.2)
      /\ set_trace [] (set_argv [] res_v.2) = set_trace [] (set_argv [] res_0.2)).
Proof.
  cbv zeta.
  pose proof (data_calls_run ["--local_rank"; str v] f d c r t) as (Pv & Fv & Cv).
  pose proof (data_calls_run [] f d c r t) as (P0 & F0 & C0).
  split; [exact (prefix_weak_total _ _ _ Pv P0)|].
  split.
  - destruct (train_from_scratch (boot ["--local_rank"; str v] f d c r t)).1;
      [|exact I].
    destruct (train_from_scratch (boot [] f d c r t)).1; [|exact I].
    now rewrite Cv, C0.
  - split; [exact Fv|]. split; [exact F0|].
    intros Hsel Hwrap. exact (rank_only_wiring f d c r t v Hsel Hwrap).
Qed.

End LocalRank.


(** * The properties on the small instance *)

Module Examples.
Import Toy.

Example toy_run_completes :
  (train_from_scratch (Toy.world [])).1 = Ok tt
  /\ length (trace (train_from_scratch (Toy.world [])).2) = 19%nat
  /\ configured_steps (trace (train_from_scratch (Toy.world [])).2) = Some 1
  /\ rng (train_from_scratch (Toy.world [])).2 = 45.
Proof. repeat split. Qed.

Example toy_run_usage_error :
  train_from_scratch (Toy.world ["--epochs"; "3"])
  = (Err (SystemExit 2), Toy.world ["--epochs"; "3"]).
Proof. reflexivity. Qed.

Example toy_run_help :
  train_from_scratch (Toy.world ["--local_rank"; "1"; "--help"])
  = (Err (SystemExit 0), Toy.world ["--local_rank"; "1"; "--help"]).
Proof. reflexivity. Qed.

Example toy_run_no_device :
  (train_from_scratch (Toy.world ["--local_rank=-5"])).1 = Err Raised
  /\ length (trace (train_from_scratch (Toy.world ["--local_rank=-5"])).2) = 5%nat.
Proof. repeat split. Qed.

Lemma local_rank_changes_only_wiring_witness :
  let res_v :=
    @train_from_scratch rank_blind rank_blind_training
      (@boot rank_blind ["--local_rank"; str 3] Toy.fs ∅ (2 : Z) (0 : Z) []) in
  let res_0 :=
    @train_from_scratch rank_blind rank_blind_training
      (@boot rank_blind [] Toy.fs ∅ (2 : Z) (0 : Z) []) in
  res_v.1 = res_0.1
  /\ map erase_local_rank (trace res_v.2) = map erase_local_rank (trace res_0.2)
  /\ set_trace [] (set_argv [] res_v.2) = set_trace [] (set_argv [] res_0.2).
Proof.
  exact (proj2 (proj2 (proj2 (proj2
           (local_rank_changes_only_wiring (H := rank_blind) (H0 := rank_blind_training)
              Toy.fs ∅ (2 : Z) (0 : Z) [] 3))))
           (fun _ => eq_refl) (fun _ _ => eq_refl)).
Defined.

Lemma output_layer_matches_vocabulary_witness :
  assembled (trace (train_from_scratch (Toy.world [])).2) = Some Toy.model
  /\ exists lines lm_head ns_head,
       Toy.fs !! path_join "data/lm_finetune_nips" "bert-base-uncased-vocab.txt"
       = Some lines
       /\ let tok := mkBertTokenizer (load_vocab lines) true in
          prediction_heads Toy.model = [lm_head; ns_head]
          /\ head_class lm_head = BertLMHead
          /\ output_width lm_head = vocab_size tok
          /\ lm_vocab_size (language_model Toy.model) = vocab_size tok.
Proof.
  split; [reflexivity|].
  apply (output_layer_matches_vocabulary (H := backend) (H0 := training)
           [] Toy.fs ∅ 2 0 []).
  reflexivity.
Defined.

Lemma seed_determinism_witness :
  assembled (trace (train_from_scratch (boot [] Toy.fs ∅ 2 0 [])).2) = Some Toy.model
  /\ assembled (trace (train_from_scratch
                         (boot [] Toy.fs ∅ 2 1000 [("", "earlier", "run")])).2)
     = Some Toy.model
  /\ Toy.model = Toy.model
  /\ parameters Toy.model = parameters Toy.model
  /\ exists table,
       encoder_shapes "bert" (lm_vocab_size (language_model Toy.model)) = Some table
       /\ lm_parameters (language_model Toy.model) = (draw table (manual_seed 39)).1.
Proof.
  split; [reflexivity|]. split; [reflexivity|].
  apply (seed_determinism (H := backend) (H0 := training)
           [] Toy.fs 2 ∅ ∅ 0 1000 [] [("", "earlier", "run")]); reflexivity.
Defined.

Lemma optimizer_step_count_witness :
  configured_steps (trace (train_from_scratch (Toy.world [])).2) = Some 1
  /\ exists lines z dev n_gpu c1 loader,
       Toy.fs !! path_join "data/lm_finetune_nips" "train.txt" = Some lines
       /\ select_device true z None 2 = Some (dev, n_gpu, c1)
       /\ In (CallLen loader) (trace (train_from_scratch (Toy.world [])).2)
       /\ corpus loader = lines
       /\ batch_size (loader_silo loader) = 60
       /\ let n_batches := ceil_div (count_samples lines) (60 * world_size c1) in
          optimizer_inputs (trace (train_from_scratch (Toy.world [])).2)
          = Some (n_batches, 1, 4)
          /\ 1 = n_batches * 1 / 4
          /\ 4 * 1 <= n_batches * 1 < 4 * 1 + 4
          /\ (0 < world_size c1 ->
              60 * world_size c1 * (n_batches - 1) < count_samples lines
              <= 60 * world_size c1 * n_batches).
Proof.
  split; [reflexivity|].
  exact (optimizer_step_count (H := backend) (H0 := training)
           [] Toy.fs ∅ 2 0 [] 1 eq_refl).
Defined.

Lemma toy_libraries_answer : libraries_answer [] Toy.fs 2 [].
Proof.
  exists {[ "local_rank" := -1 ]}, (-1), (-1), 1, 2, ["[PAD]"; "[UNK]"; "the"].
  split; [reflexivity|]. split; [reflexivity|]. split; [eexists; reflexivity|].
  split; [reflexivity|]. split; [discriminate|]. split; [reflexivity|].
  split; [eexists; reflexivity|]. split; [eexists; reflexivity|].
  split; [eexists; reflexivity|]. split; [intros; eexists; reflexivity|].
  split; reflexivity.
Qed.

Lemma persistence_is_last_witness :
  let res := train_from_scratch (boot [] Toy.fs ∅ 2 0 []) in
  let save_dir := "saved_models/train_from_scratch" in
  libraries_answer [] Toy.fs 2 []
  /\ res.1 = Ok tt
  /\ exists pre trainer m proc,
       trace res.2
       = pre ++ [CallTrain trainer; CallModelSave 0%nat save_dir;
                 CallProcessorSave proc save_dir]
       /\ Forall (fun c => written_dir c = None) pre
       /\ trained trainer m
       /\ objects res.2 !! 0%nat = Some m
       /\ save_dirs res.2 = <[save_dir := mkSaveDir (Some m) (Some proc)]> ∅.
Proof.
  cbv zeta.
  pose proof (persistence_is_last (H := backend) (H0 := training)
                [] Toy.fs ∅ 2 0 []) as Hlast.
  cbv zeta in Hlast. destruct Hlast as [Hgo Hend].
  pose proof (Hgo toy_libraries_answer) as Hok.
  rewrite Hok in Hend.
  exact (conj toy_libraries_answer (conj Hok Hend)).
Defined.

End Examples.

(** * The order and the wiring of the calls *)

Section Pipeline.
Context `{TrainingLoop}.

(** What a call calls, as the script writes it. *)
Definition callee (c : Call) : string :=
  match c with
  | CallBasicConfig _ _ _ => "logging.basicConfig"
  | CallMLFlowLogger _ => "MLFlowLogger"
  | CallInitExperiment _ _ _ => "ml_logger.init_experiment"
  | CallSetAllSeeds _ => "set_all_seeds"
  | CallInitializeDeviceSettings _ _ _ => "initialize_device_settings"
  | CallBertTokenizer _ _ => "BertTokenizer"
  | CallBertStyleLMProcessor _ _ _ _ _ _ => "BertStyleLMProcessor"
  | CallStreamingDataSilo _ _ _ => "StreamingDataSilo"
  | CallFromScratch _ _ => "LanguageModel.from_scratch"
  | CallBertLMHead _ _ => "BertLMHead"
  | CallNextSentenceHead _ _ => "NextSentenceHead"
  | CallAdaptiveModel _ _ _ _ _ => "AdaptiveModel"
  | CallGetDataLoader _ _ => "stream_data_silo.get_data_loader"
  | CallLen _ => "len"
  | CallInitializeOptimizer _ _ _ _ _ _ _ _ _ _ => "initialize_optimizer"
  | CallCreateOrLoadCheckpoint _ _ _ _ _ _ _ _ _ _ _ _ => "Trainer.create_or_load_checkpoint"
  | CallTrain _ => "trainer.train"
  | CallModelSave _ _ => "model.save"
  | CallProcessorSave _ _ => "processor.save"
  end.

(** The calls of [train_from_scratch], in the order of its lines. *)
Definition stages : list string :=
  [ "logging.basicConfig"; "MLFlowLogger"; "ml_logger.init_experiment";
    "set_all_seeds"; "initialize_device_settings"; "BertTokenizer";
    "BertStyleLMProcessor"; "StreamingDataSilo"; "LanguageModel.from_scratch";
    "BertLMHead"; "NextSentenceHead"; "AdaptiveModel";
    "stream_data_silo.get_data_loader"; "len"; "initialize_optimizer";
    "Trainer.create_or_load_checkpoint"; "trainer.train"; "model.save";
    "processor.save" ].

(** All the elements of a list are the same. *)
Definition all_same {A : Type} (l : list A) : Prop :=
  match l with
  | [] => True
  | x :: rest => Forall (eq x) rest
  end.

(** The device a call is given. *)
Definition device_of (c : Call) : option Device :=
  match c with
  | CallAdaptiveModel _ _ _ _ dev => Some dev
  | CallInitializeOptimizer _ _ _ _ _ dev _ _ _ _ => Some dev
  | CallCreateOrLoadCheckpoint _ _ _ _ _ _ _ dev _ _ _ _ => Some dev
  | _ => None
  end.

(** The number of epochs and of gradient accumulation steps a call is given. *)
Definition knobs_of (c : Call) : option (Z * Z) :=
  match c with
  | CallInitializeOptimizer _ _ _ _ n_epochs _ grad_acc _ _ _ => Some (n_epochs, grad_acc)
  | CallCreateOrLoadCheckpoint _ _ _ epochs _ _ _ _ grad_acc _ _ _ => Some (epochs, grad_acc)
  | _ => None
  end.

(** The silo a call is given. *)
Definition silo_of (c : Call) : option StreamingDataSilo :=
  match c with
  | CallGetDataLoader silo _ => Some silo
  | CallCreateOrLoadCheckpoint _ _ silo _ _ _ _ _ _ _ _ _ => Some silo
  | _ => None
  end.

(** The model a call trains or saves. *)
Definition model_of (c : Call) : option ModelRef :=
  match c with
  | CallCreateOrLoadCheckpoint model _ _ _ _ _ _ _ _ _ _ _ => Some model
  | CallModelSave model _ => Some model
  | _ => None
  end.

(** The processor a call wraps or saves. *)
Definition processor_of (c : Call) : option BertStyleLMProcessor :=
  match c with
  | CallStreamingDataSilo proc _ _ => Some proc
  | CallProcessorSave proc _ => Some proc
  | _ => None
  end.

(** The vocabulary size a call is given, or that of the tokenizer it is
    given. *)
Definition vocabulary_of (c : Call) : option Z :=
  match c with
  | CallBertStyleLMProcessor _ tok _ _ _ _ => Some (vocab_size tok)
  | CallFromScratch _ vocabulary => Some vocabulary
  | CallBertLMHead _ vocabulary => Some vocabulary
  | _ => None
  end.

(** The local rank a call is given, in the namespace or by itself. *)
Definition rank_of (c : Call) : option Z :=
  match c with
  | CallInitializeDeviceSettings _ args _ => args !! "local_rank"
  | CallInitializeOptimizer _ _ _ _ _ _ _ _ _ local_rank => Some local_rank
  | _ => None
  end.

(** X1.  The script is a straight line: the calls of any run are, in
    order, the first calls of the nineteen the script is made of.  A run
    that completes has made all nineteen; a run that has made all nineteen
    has completed, unless the last of them, the save of the processor,
    failed; and when every library answers, the run completes. *)
Theorem calls_follow_the_stages a f d c r t :
  let res := train_from_scratch (boot a f d c r t) in
  map callee (trace res.2) `prefix_of` stages
  /\ (res.1 = Ok tt -> map callee (trace res.2) = stages)
  /\ (map callee (trace res.2) = stages ->
      res.1 = Ok tt
      \/ res.1 = Err Raised
         /\ takes_files "saved_models/train_from_scratch" "processor" = false)
  /\ (libraries_answer a f c t -> res.1 = Ok tt).
Proof.
  cbv zeta. pose proof (answered_run_completes a f d c r t) as Hgo. revert Hgo.
  run_script; intros Hgo.
  all: split;
    [unfold stages; repeat apply prefix_cons; try apply prefix_nil; reflexivity|].
  all: split; [intros E'; try discriminate E'; reflexivity|].
  all: split; [|exact Hgo].
  all: intros E'; try discriminate E';
    first [left; reflexivity | right; split; reflexivity].
Qed.

End Pipeline.

Section Outcomes.
Context `{TrainingLoop}.

Lemma parse_args_exit (a : list string) (code : Z) :
  argparse.parse_args
    (argparse.add_argument argparse.new
       (argparse.mkAction "--local_rank" argparse.int (-1)
          "local_rank for distributed training on gpus")) a
  = argparse.SystemExit code ->
  code = 0 \/ code = 2.
Proof.
  intros Hp. pose proof (parse_args_local_rank a) as Hc.
  rewrite Hp in Hc. exact Hc.
Qed.

(** X2.  The script leaves with an exit status only when [argparse] refuses
    the command line or prints the help: then the status is 2 or 0 and
    nothing has been called or changed.  Once the command line is accepted,
    a run either completes or ends in an exception of a library. *)
Theorem exit_status_only_from_argparse a f d c r t :
  let w := boot a f d c r t in
  let res := train_from_scratch w in
  match (parse_arguments w).1 with
  | Err e => res = (Err e, w) /\ (e = SystemExit 0 \/ e = SystemExit 2)
  | Ok _ => res.1 = Ok tt \/ res.1 = Err Raised
  end.
Proof.
  cbv zeta. run_script; auto.
  split; [reflexivity|].
  destruct (parse_args_exit _ _ Hparse) as [-> | ->]; auto.
Qed.

(** X3.  One device, one pair of knobs and one silo serve the whole run:
    the device the model is put on is the device the optimizer and the
    trainer are given; the trainer runs the number of epochs and of
    gradient accumulation steps the schedule was sized for; and it iterates
    the silo whose training loader was measured. *)
Theorem one_device_one_silo a f d c r t :
  let res := train_from_scratch (boot a f d c r t) in
  all_same (omap device_of (trace res.2))
  /\ all_same (omap knobs_of (trace res.2))
  /\ all_same (omap silo_of (trace res.2))
  /\ match res.1 with
     | Ok _ =>
         length (omap device_of (trace res.2)) = 3%nat
         /\ length (omap knobs_of (trace res.2)) = 2%nat
         /\ length (omap silo_of (trace res.2)) = 2%nat
     | Err _ => True
     end.
Proof.
  cbv zeta. run_script.
  all: repeat split; repeat constructor.
Qed.

(** X4.  What is saved is what was trained, and it was sized together: the
    model given to [save] is the model given to the trainer, the processor
    given to [save] is the processor the silo was built on, and the
    vocabulary size given to the encoder and to the masked-LM head is that
    of the tokenizer given to the processor. *)
Theorem saved_is_trained a f d c r t :
  let res := train_from_scratch (boot a f d c r t) in
  all_same (omap model_of (trace res.2))
  /\ all_same (omap processor_of (trace res.2))
  /\ all_same (omap vocabulary_of (trace res.2))
  /\ match res.1 with
     | Ok _ =>
         length (omap model_of (trace res.2)) = 2%nat
         /\ length (omap processor_of (trace res.2)) = 2%nat
         /\ length (omap vocabulary_of (trace res.2)) = 3%nat
     | Err _ => True
     end.
Proof.
  cbv zeta. run_script.
  all: repeat split; repeat constructor.
Qed.

End Outcomes.

Section Rank.
Context `{TrainingLoop}.

Lemma rank_of_run a f d c r t (ns : gmap string Z) (z : Z) :
  argparse.parse_args
    (argparse.add_argument argparse.new
       (argparse.mkAction "--local_rank" argparse.int (-1)
          "local_rank for distributed training on gpus")) a
  = argparse.Parsed ns ->
  ns !! "local_rank" = Some z ->
  let res := train_from_scratch (boot a f d c r t) in
  Forall (eq z) (omap rank_of (trace res.2))
  /\ match res.1 with
     | Ok _ => omap rank_of (trace res.2) = [z; z]
     | Err _ => True
     end.
Proof.
  cbv zeta. run_script; intros Hp Hz; try discriminate Hp.
  all: injection Hp as ->; rewrite ?Hz in *; simplify_eq.
  all: split; [|try exact I; try reflexivity].
  all: repeat constructor.
Qed.

(** X5.  The rank of the command line reaches both of its consumers
    unchanged: with [--local_rank v] device selection and optimizer
    initialization are both given [v], and without the flag both are given
    -1. *)
Theorem rank_reaches_both_consumers f d c r t (v : Z) :
  let res_v := train_from_scratch (boot ["--local_rank"; str v] f d c r t) in
  let res_0 := train_from_scratch (boot [] f d c r t) in
  Forall (eq v) (omap rank_of (trace res_v.2))
  /\ Forall (eq (-1)) (omap rank_of (trace res_0.2))
  /\ match res_v.1 with
     | Ok _ => omap rank_of (trace res_v.2) = [v; v]
     | Err _ => True
     end
  /\ match res_0.1 with
     | Ok _ => omap rank_of (trace res_0.2) = [-1; -1]
     | Err _ => True
     end.
Proof.
  cbv zeta.
  destruct (rank_of_run ["--local_rank"; str v] f d c r t _ v
              (parse_present v) (lookup_singleton_eq _ _)) as [Fv Cv].
  destruct (rank_of_run [] f d c r t _ (-1)
              parse_absent (lookup_singleton_eq _ _)) as [F0 C0].
  auto.
Qed.

End Rank.

(** * More of the command line *)

(** A letter of the alphabet. *)
Definition is_letter (c : ascii) : bool :=
  let n := nat_of_ascii c in
  ((65 <=? n)%nat && (n <=? 90)%nat) || ((97 <=? n)%nat && (n <=? 122)%nat).

Fixpoint has_letter (s : string) : bool :=
  match s with
  | EmptyString => false
  | String c r => is_letter c || has_letter r
  end.

(** A letter is no digit, no blank, no sign and no underscore. *)
Lemma letter_plain (c : ascii) :
  is_letter c = true ->
  argparse.is_digit c = false /\ argparse.is_space c = false
  /\ Ascii.eqb c "_" = false /\ Ascii.eqb c "-" = false /\ Ascii.eqb c "+" = false.
Proof.
  destruct c as [[] [] [] [] [] [] [] []]; intros Hc; try discriminate Hc;
    repeat split; reflexivity.
Qed.

Lemma has_letter_lstrip (s : string) :
  has_letter s = true -> has_letter (argparse.lstrip s) = true.
Proof.
  induction s as [|c r IH]; [discriminate|]. cbn [has_letter argparse.lstrip].
  intros Hs. destruct (argparse.is_space c) eqn:Hc; [|exact Hs].
  apply orb_true_iff in Hs as [Hl | Hr]; [|now apply IH].
  apply letter_plain in Hl as (_ & Hl & _). congruence.
Qed.

Lemma has_letter_rstrip (s : string) :
  has_letter s = true -> has_letter (argparse.rstrip s) = true.
Proof.
  induction s as [|c r IH]; [discriminate|]. cbn [has_letter argparse.rstrip].
  intros Hs. apply orb_true_iff in Hs as [Hl | Hr].
  - destruct (letter_plain c Hl) as (_ & -> & _).
    destruct (argparse.rstrip r); cbn [has_letter]; now rewrite Hl.
  - specialize (IH Hr). destruct (argparse.rstrip r); [discriminate IH|].
    cbn [has_letter] in *. rewrite IH. apply orb_true_r.
Qed.

Lemma digits_letter (s : string) (b : bool) :
  has_letter s = true -> argparse.digits s b = None.
Proof.
  revert b. induction s as [|c r IH]; intros b; [discriminate|].
  cbn [has_letter argparse.digits]. intros Hs.
  destruct (argparse.is_digit c) eqn:Hd.
  - destruct (is_letter c) eqn:Hl.
    + apply letter_plain in Hl as (Hl & _). congruence.
    + rewrite (IH true Hs). reflexivity.
  - destruct (Ascii.eqb c "_") eqn:Hu; [|reflexivity].
    destruct (is_letter c) eqn:Hl.
    + apply letter_plain in Hl as (_ & _ & Hl & _). congruence.
    + destruct b; [|reflexivity]. exact (IH false Hs).
Qed.

(** [int] refuses whatever holds a letter. *)
Lemma int_letter (s : string) : has_letter s = true -> argparse.int s = None.
Proof.
  intros Hs. apply has_letter_lstrip, has_letter_rstrip in Hs.
  unfold argparse.int. destruct (argparse.rstrip (argparse.lstrip s)) as [|c r].
  { discriminate Hs. }
  cbn [has_letter] in Hs.
  destruct (Ascii.eqb c "-") eqn:Hm.
  { apply Ascii.eqb_eq in Hm as ->. cbn in Hs. now rewrite (digits_letter r false Hs). }
  destruct (Ascii.eqb c "+") eqn:Hp.
  { apply Ascii.eqb_eq in Hp as ->. cbn in Hs. now rewrite (digits_letter r false Hs). }
  now rewrite (digits_letter (String c r) false Hs).
Qed.

(** Case analysis on the comparisons of characters. *)
Ltac char_cases :=
  repeat match goal with
         | |- context [ascii_dec ?a ?b] =>
             destruct (ascii_dec a b) as [?|?]; try discriminate; try congruence; subst
         end.

(** The options of a command line are looked for in what precedes the
    pseudo-argument [--]. *)
Fixpoint before_separator (args : list string) : list string :=
  match args with
  | [] => []
  | tok :: rest => if String.eqb tok "--" then [] else tok :: before_separator rest
  end.

(** A token of two dashes and an [=] abbreviates [--help] as well as
    [--local_rank]. *)
Definition ambiguous (tok : string) : bool := String.prefix "--=" tok.

Section MoreCommandLine.
Context `{TrainingLoop}.

Lemma ambiguous_exit (tok : string) :
  ambiguous tok = true ->
  argparse.parse_optional local_rank_parser tok = argparse.SystemExit 2.
Proof.
  unfold ambiguous. intros Ha.
  destruct tok as [|c0 [|c1 [|c2 r]]]; cbn [String.prefix] in Ha;
    try discriminate Ha; revert Ha; char_cases.
  intros _. reflexivity.
Qed.

Lemma get_option_tuples_unambiguous (c1 : ascii) (r1 : string) :
  ambiguous (String "-" (String c1 r1)) = false ->
  String.eqb (String "-" (String c1 r1)) "--" = false ->
  (length (argparse.get_option_tuples local_rank_parser (String "-" (String c1 r1)))
   <= 1)%nat.
Proof.
  unfold ambiguous, argparse.get_option_tuples, argparse.option_string_actions,
    argparse.add_argument, argparse.new.
  cbn [argparse.actions app map fst snd argparse.option_string].
  intros Ha Hdd. destruct (ascii_dec "-" c1) as [<-|Hc1].
  - destruct r1 as [|c2 r2]; [discriminate Hdd|].
    assert (Hc2 : Ascii.eqb c2 "=" = false).
    { apply Ascii.eqb_neq. intros ->. revert Ha. cbn [String.prefix]. char_cases.
      destruct r2; discriminate. }
    change (String.prefix "--" (String "-" (String "-" (String c2 r2)))) with true.
    cbv iota. cbn [argparse.split_eq Ascii.eqb Bool.eqb]. rewrite Hc2.
    destruct (argparse.split_eq r2) as [o' e].
    assert (H1 : String.prefix (String "-" (String "-" (String c2 o'))) "-h" = false).
    { cbn [String.prefix]. now char_cases. }
    assert (H2 : String.prefix (String "-" (String "-" (String c2 o'))) "--help" = true
                 -> c2 = "h"%char).
    { cbn [String.prefix]. char_cases. }
    assert (H3 : String.prefix (String "-" (String "-" (String c2 o'))) "--local_rank"
                 = true -> c2 = "l"%char).
    { cbn [String.prefix]. char_cases. }
    cbn [omap list_omap fst snd argparse.option_string]. rewrite H1.
    destruct (String.prefix (String "-" (String "-" (String c2 o'))) "--help") eqn:E2;
      destruct (String.prefix (String "-" (String "-" (String c2 o'))) "--local_rank")
        eqn:E3; cbv iota; cbn [length]; try lia.
    specialize (H2 eq_refl). specialize (H3 eq_refl). rewrite H2 in H3. discriminate H3.
  - assert (Hp : String.prefix "--" (String "-" (String c1 r1)) = false).
    { cbn [String.prefix]. now char_cases. }
    assert (Hsub : String.substring 0 2 (String "-" (String c1 r1))
                   = String "-" (String c1 "")).
    { cbn [String.substring]. now destruct r1. }
    rewrite Hp, Hsub. cbn [omap list_omap fst snd argparse.option_string].
    assert (E2 : String.eqb "--help" (String "-" (String c1 "")) = false).
    { cbn [String.eqb]. repeat (destruct (Ascii.eqb _ _); try reflexivity). }
    assert (E3 : String.eqb "--local_rank" (String "-" (String c1 "")) = false).
    { cbn [String.eqb]. repeat (destruct (Ascii.eqb _ _); try reflexivity). }
    assert (P2 : String.prefix (String "-" (String c1 r1)) "--help" = false).
    { cbn [String.prefix]. now char_cases. }
    assert (P3 : String.prefix (String "-" (String c1 r1)) "--local_rank" = false).
    { cbn [String.prefix]. now char_cases. }
    rewrite E2, E3, P2, P3.
    destruct (String.eqb "-h" _); [cbn; lia|].
    destruct (String.prefix _ "-h"); cbn; lia.
Qed.

Lemma unambiguous_parsed (tok : string) :
  ambiguous tok = false -> String.eqb tok "--" = false ->
  exists t, argparse.parse_optional local_rank_parser tok = argparse.Parsed t.
Proof.
  intros Ha Hdd. unfold argparse.parse_optional.
  destruct tok as [|c0 r0]; [eexists; reflexivity|].
  destruct (Ascii.eqb_spec c0 "-") as [->|_]; cbn [negb]; [|eexists; reflexivity].
  destruct (argparse.lookup_option _ _); [eexists; reflexivity|].
  destruct r0 as [|c1 r1]; [eexists; reflexivity|].
  pose proof (get_option_tuples_unambiguous c1 r1 Ha Hdd) as Hlen.
  assert (Hrest : exists t,
    match argparse.get_option_tuples local_rank_parser (String "-" (String c1 r1)) with
    | [] =>
        if argparse.negative_number (String "-" (String c1 r1))
        then argparse.Parsed argparse.TArgument
        else if argparse.contains_space (String "-" (String c1 r1))
             then argparse.Parsed argparse.TArgument
             else argparse.Parsed argparse.TUnknown
    | [t] => argparse.Parsed t
    | _ => argparse.SystemExit 2
    end = argparse.Parsed t).
  { destruct (argparse.get_option_tuples _ _) as [|t0 [|t1 l]].
    - destruct (argparse.negative_number _);
        [|destruct (argparse.contains_space _)]; eexists; reflexivity.
    - eexists; reflexivity.
    - cbn in Hlen. lia. }
  destruct (argparse.split_eq _) as [o [e|]]; [|exact Hrest].
  destruct (argparse.lookup_option local_rank_parser o); [eexists; reflexivity|exact Hrest].
Qed.

(** The first pass fails exactly on an ambiguous token before [--]. *)
Lemma scan_status (args : list string) :
  if existsb ambiguous (before_separator args)
  then argparse.scan local_rank_parser args = argparse.SystemExit 2
  else exists toks, argparse.scan local_rank_parser args = argparse.Parsed toks.
Proof.
  induction args as [|tok rest IH]; [eexists; reflexivity|].
  cbn [before_separator argparse.scan].
  destruct (String.eqb tok "--") eqn:Hdd; [eexists; reflexivity|].
  cbn [existsb]. destruct (ambiguous tok) eqn:Ha; cbn [orb].
  - now rewrite (ambiguous_exit tok Ha).
  - destruct (unambiguous_parsed tok Ha Hdd) as [t ->].
    destruct (existsb ambiguous (before_separator rest)).
    + now rewrite IH.
    + destruct IH as [toks ->]. eexists; reflexivity.
Qed.

Lemma script_exits (w w' : World) (e : Exn) :
  parse_arguments w = (Err e, w') -> train_from_scratch w = (Err e, w').
Proof.
  intros Hp. unfold train_from_scratch. monad. now rewrite Hp.
Qed.

Lemma exits (w : World) (args : list string) (code : Z) :
  argparse.parse_args local_rank_parser args = argparse.SystemExit code ->
  train_from_scratch (set_argv args w) = (Err (SystemExit code), set_argv args w).
Proof.
  intros Hp. apply script_exits. rewrite parse_arguments_run. cbn [argv set_argv].
  now rewrite Hp.
Qed.

(** X6.  A rank that is no integer, a flag without its value and an
    argument that is no option end the script with status 2, before
    anything is called or changed. *)
Theorem bad_command_line_exits_2 (w : World) (s tok : string) :
  has_letter s = true ->
  String.prefix "-" tok = false ->
  train_from_scratch (set_argv ["--local_rank"; s] w)
  = (Err (SystemExit 2), set_argv ["--local_rank"; s] w)
  /\ train_from_scratch (set_argv ["--local_rank=" +:+ s] w)
     = (Err (SystemExit 2), set_argv ["--local_rank=" +:+ s] w)
  /\ train_from_scratch (set_argv ["--local_rank"] w)
     = (Err (SystemExit 2), set_argv ["--local_rank"] w)
  /\ train_from_scratch (set_argv [tok] w)
     = (Err (SystemExit 2), set_argv [tok] w).
Proof.
  intros Hs Htok. pose proof (int_letter s Hs) as Hint.
  destruct (parse_optional_positional local_rank_parser tok Htok) as [Hdd Hcl].
  split; [|split; [|split]]; apply exits; unfold argparse.parse_args.
  - cbn [argparse.scan].
    change (String.eqb "--local_rank" "--") with false. cbv iota.
    change (argparse.parse_optional local_rank_parser "--local_rank")
      with (argparse.Parsed
              (argparse.TOption
                 (Some (argparse.mkAction "--local_rank" argparse.int (-1)
                          "local_rank for distributed training on gpus"))
                 "--local_rank" None)).
    cbv iota. destruct (String.eqb s "--"); [reflexivity|].
    destruct (argparse.parse_optional local_rank_parser s) as [t|code] eqn:Ht.
    + destruct t as [[a|] o [e|]| | |]; cbn [argparse.consume argparse.type];
        try reflexivity. now rewrite Hint.
    + now rewrite (parse_optional_exit _ _ _ Ht).
  - rewrite scan_flag_eq_value. cbn [argparse.scan argparse.consume argparse.type].
    now rewrite Hint.
  - reflexivity.
  - cbn [argparse.scan]. rewrite Hdd, Hcl. reflexivity.
Qed.

(** The spellings of the flag: [--local_rank] and what abbreviates it. *)
Definition spellings : list string :=
  [ "--l"; "--lo"; "--loc"; "--loca"; "--local"; "--local_"; "--local_r";
    "--local_ra"; "--local_ran"; "--local_rank" ].

(** X7.  Every abbreviation of the flag down to [--l] stands for it; when
    the flag is given twice, in either form, the last value is the one
    kept; and [-h] or [--help], where it is the first option met, ends the
    script with status 0 whatever follows, unless an ambiguous token
    stands anywhere before a [--]: the script then ends with status 2. *)
Theorem flags_compose (w : World) (v1 v2 : Z) :
  Forall (fun flag =>
            parse_arguments (set_argv [flag; str v1] w)
            = (Ok {[ "local_rank" := v1 ]}, set_argv [flag; str v1] w)) spellings
  /\ parse_arguments (set_argv ["--local_rank"; str v1; "--local_rank"; str v2] w)
     = (Ok {[ "local_rank" := v2 ]},
        set_argv ["--local_rank"; str v1; "--local_rank"; str v2] w)
  /\ parse_arguments (set_argv ["--local_rank=" +:+ str v1; "--local"; str v2] w)
     = (Ok {[ "local_rank" := v2 ]},
        set_argv ["--local_rank=" +:+ str v1; "--local"; str v2] w)
  /\ (forall rest : list string,
        train_from_scratch (set_argv ("-h" :: rest) w)
        = (Err (SystemExit (if existsb ambiguous (before_separator rest) then 2 else 0)),
           set_argv ("-h" :: rest) w))
  /\ (forall rest : list string,
        train_from_scratch (set_argv ("--local_rank" :: str v1 :: "--help" :: rest) w)
        = (Err (SystemExit (if existsb ambiguous (before_separator rest) then 2 else 0)),
           set_argv ("--local_rank" :: str v1 :: "--help" :: rest) w)).
Proof.
  split; [|split; [|split; [|split]]].
  - unfold spellings.
    repeat (apply Forall_cons; split;
            [rewrite parse_arguments_run; cbn [argv set_argv];
             unfold argparse.parse_args;
             rewrite scan_flag_value by reflexivity; cbn [argparse.scan];
             rewrite consume_flag_value, defaults_local_rank, insert_singleton_eq;
             reflexivity|]).
    constructor.
  - rewrite parse_arguments_run. cbn [argv set_argv].
    unfold argparse.parse_args.
    rewrite !scan_flag_value by reflexivity. cbn [argparse.scan].
    rewrite !consume_flag_value, defaults_local_rank, !insert_singleton_eq.
    reflexivity.
  - rewrite parse_arguments_run. cbn [argv set_argv].
    unfold argparse.parse_args.
    rewrite scan_flag_eq_value, scan_flag_value by reflexivity. cbn [argparse.scan].
    rewrite consume_flag_eq_value, consume_flag_value, defaults_local_rank,
      !insert_singleton_eq.
    reflexivity.
  - intros rest. apply exits. unfold argparse.parse_args.
    pose proof (scan_status rest) as Hrest.
    change (argparse.scan local_rank_parser ("-h" :: rest))
      with (match argparse.scan local_rank_parser rest with
            | argparse.Parsed ts =>
                argparse.Parsed (("-h", argparse.TOption None "-h" None) :: ts)
            | argparse.SystemExit code => argparse.SystemExit code
            end).
    destruct (existsb ambiguous (before_separator rest)).
    + now rewrite Hrest.
    + destruct Hrest as [toks ->]. reflexivity.
  - intros rest. apply exits. unfold argparse.parse_args.
    pose proof (scan_status rest) as Hrest.
    rewrite scan_flag_value by reflexivity.
    change (argparse.scan local_rank_parser ("--help" :: rest))
      with (match argparse.scan local_rank_parser rest with
            | argparse.Parsed ts =>
                argparse.Parsed (("--help", argparse.TOption None "--help" None) :: ts)
            | argparse.SystemExit code => argparse.SystemExit code
            end).
    destruct (existsb ambiguous (before_separator rest)).
    + now rewrite Hrest.
    + destruct Hrest as [toks ->]. rewrite consume_flag_value. reflexivity.
Qed.

End MoreCommandLine.

(** * The module run as a script (lines 139-140) *)

Section Main.
Context `{TrainingLoop}.

(** The body of the module under a given [__name__]: the guard on the
    last lines calls [train_from_scratch] when the module is the script. *)
Definition module_body (name : string) : M unit :=
  if String.eqb name "__main__" then train_from_scratch else mret tt.

Lemma import_runs_nothing (name : string) (w : World) :
  name <> "__main__" -> module_body name w = (Ok tt, w).
Proof.
  intros Hn. unfold module_body.
  destruct (String.eqb_spec name "__main__") as [E|_]; [contradiction|reflexivity].
Qed.

End Main.

Module MoreExamples.
Import Toy.

Example toy_run_stages :
  map callee (trace (train_from_scratch (Toy.world ["--local_rank"; "1"])).2) = stages
  /\ omap rank_of (trace (train_from_scratch (Toy.world ["--local_rank"; "1"])).2)
     = [1; 1]
  /\ omap vocabulary_of (trace (train_from_scratch (Toy.world [])).2) = [3; 3; 3]
  /\ omap knobs_of (trace (train_from_scratch (Toy.world [])).2) = [(1, 4); (1, 4)].
Proof. repeat split. Qed.

Example toy_run_stops_at_device :
  map callee (trace (train_from_scratch (Toy.world ["--local_rank=-5"])).2)
  = take 5 stages.
Proof. reflexivity. Qed.

Lemma bad_command_line_exits_2_witness :
  has_letter "1e3" = true
  /\ String.prefix "-" "train.txt" = false
  /\ train_from_scratch (set_argv ["--local_rank"; "1e3"] (Toy.world []))
     = (Err (SystemExit 2), set_argv ["--local_rank"; "1e3"] (Toy.world []))
  /\ train_from_scratch (set_argv ["--local_rank=" +:+ "1e3"] (Toy.world []))
     = (Err (SystemExit 2), set_argv ["--local_rank=" +:+ "1e3"] (Toy.world []))
  /\ train_from_scratch (set_argv ["--local_rank"] (Toy.world []))
     = (Err (SystemExit 2), set_argv ["--local_rank"] (Toy.world []))
  /\ train_from_scratch (set_argv ["train.txt"] (Toy.world []))
     = (Err (SystemExit 2), set_argv ["train.txt"] (Toy.world [])).
Proof.
  split; [reflexivity|]. split; [reflexivity|].
  exact (bad_command_line_exits_2 (H := backend) (H0 := training)
           (Toy.world []) "1e3" "train.txt" eq_refl eq_refl).
Defined.

End MoreExamples.
